(** * Worklog retrieval (GetWorklogs/index.js and tempoService.js)

    A shallow embedding of the HTTP handler and of [TempoService]:
    the paginated fetch from Tempo, the best-effort enrichment with Jira
    issue keys, and the normalisation of raw worklogs.

    The payloads are untyped JSON in the source, so the embedding works on
    a type of JavaScript values and spells out the coercions the source
    relies on (truthiness, [?.], [||], [+], [/], [toFixed]).  Numbers are
    IEEE 754 binary64, taken from the standard library's [SpecFloat]. *)

From Stdlib Require Import ZArith List String Ascii Bool Lia SpecFloat DecimalString.
From stdpp Require Import gmap strings.
Import ListNotations.

Local Set Warnings "-register-all".
Local Open Scope string_scope.
Local Open Scope Z_scope.

(** ** JavaScript values *)

Module JS.

(** A parsed JSON document, plus [undefined] for absent properties.
    Strings are sequences of 8-bit characters; an object keeps its
    properties in insertion order. *)
Inductive value : Type :=
| Undefined
| Null
| Bool (b : bool)
| Num (x : spec_float)
| Str (s : string)
| Arr (items : list value)
| Obj (props : list (string * value)).

(** Binary64 parameters. *)
Definition prec : Z := 53.
Definition emax : Z := 1024.

(** The double nearest to an integer (exact below 2^53). *)
Definition num_of_Z (z : Z) : spec_float := binary_normalize prec emax z 0 false.

Definition int (z : Z) : value := Num (num_of_Z z).

(** A thrown exception: an [Error] object with its [message] and, for
    the errors of the HTTP client, the [response] it carries
    ([undefined] on the errors the runtime raises itself). *)
Record error : Type := {
  message : string;
  response : value
}.

Definition TypeError (msg : string) : error :=
  {| message := msg; response := Undefined |}.

Inductive result (A : Type) : Type :=
| Ok (a : A)
| Throw (e : error).
Arguments Ok {A} a.
Arguments Throw {A} e.

Definition bind {A B} (r : result A) (k : A -> result B) : result B :=
  match r with
  | Ok a => k a
  | Throw e => Throw e
  end.

Notation "'let*' x ':=' r 'in' k" := (bind r (fun x => k))
  (at level 10, x pattern, r at level 100, k at level 200).

(** ToBoolean. *)
Definition truthy (v : value) : bool :=
  match v with
  | Undefined | Null => false
  | Bool b => b
  | Num (S754_zero _) | Num S754_nan => false
  | Num _ => true
  | Str s => negb (String.eqb s "")
  | Arr _ | Obj _ => true
  end.

(** Own-property lookup in an object literal. *)
Fixpoint lookup_prop (name : string) (props : list (string * value)) : value :=
  match props with
  | [] => Undefined
  | (k, v) :: rest => if String.eqb k name then v else lookup_prop name rest
  end.

Definition str_length (s : string) : Z := Z.of_nat (String.length s).

(** [v.name].  Reading a property of [undefined] or [null] throws; on the
    other primitives and on arrays only [length] is modelled, which is the
    one inherited property the program reads. *)
Definition get (v : value) (name : string) : result value :=
  match v with
  | Undefined => Throw (TypeError ("Cannot read properties of undefined (reading '" ++ name ++ "')"))
  | Null => Throw (TypeError ("Cannot read properties of null (reading '" ++ name ++ "')"))
  | Obj props => Ok (lookup_prop name props)
  | Arr items => Ok (if String.eqb name "length" then int (Z.of_nat (List.length items)) else Undefined)
  | Str s => Ok (if String.eqb name "length" then int (str_length s) else Undefined)
  | Bool _ | Num _ => Ok Undefined
  end.

(** [v?.name]. *)
Definition get_opt (v : value) (name : string) : value :=
  match v with
  | Undefined | Null => Undefined
  | Obj props => lookup_prop name props
  | Arr items => if String.eqb name "length" then int (Z.of_nat (List.length items)) else Undefined
  | Str s => if String.eqb name "length" then int (str_length s) else Undefined
  | Bool _ | Num _ => Undefined
  end.

(** [v === "literal"]. *)
Definition strict_equals_string (v : value) (literal : string) : bool :=
  match v with
  | Str s => String.eqb s literal
  | _ => false
  end.

(** [a || b] and [a && b]. *)
Definition or_else (a b : value) : value := if truthy a then a else b.
Definition and_then (a b : value) : value := if truthy a then b else a.

(** [o.name = v] on an object literal: overwrite in place, or append. *)
Fixpoint set_prop (name : string) (v : value) (props : list (string * value))
  : list (string * value) :=
  match props with
  | [] => [(name, v)]
  | (k, w) :: rest =>
      if String.eqb k name then (k, v) :: rest else (k, w) :: set_prop name v rest
  end.

(** [target.name = v]; storing into a primitive is dropped. *)
Definition assign (target : value) (name : string) (v : value) : value :=
  match target with
  | Obj props => Obj (set_prop name v props)
  | _ => target
  end.

(** The values an iteration ([...x], [for (... of x)]) goes through;
    [complaint] is the message of the type error that the construct at
    hand raises on a value that cannot be iterated. *)
Definition iterate (complaint : string) (v : value) : result (list value) :=
  match v with
  | Arr items => Ok items
  | Str s => Ok (map (fun c => Str (String c "")) (list_ascii_of_string s))
  | _ => Throw (TypeError complaint)
  end.

Definition spread_complaint : string :=
  "Spread syntax requires ...iterable[Symbol.iterator] to be a function".

(** *** An object literal used as a dictionary *)

(** The members every object inherits from [Object.prototype]; the
    accessor [__proto__] is treated apart. *)
Definition prototype_names : list string :=
  ["constructor"; "hasOwnProperty"; "isPrototypeOf"; "propertyIsEnumerable";
   "toLocaleString"; "toString"; "valueOf";
   "__defineGetter__"; "__defineSetter__"; "__lookupGetter__"; "__lookupSetter__"].

(** [{}] after some stores [o[name] = { key, summary }]: its own
    properties and, once a store under [__proto__] has gone through the
    setter the object inherits, the [key] and [summary] of the stored
    object, which has taken the place of [Object.prototype] as prototype
    (and has [Object.prototype] as its own). *)
Record dictionary : Type := {
  own : gmap string value;
  proto : option (value * value)
}.

Definition empty_dictionary : dictionary := {| own := ∅; proto := None |}.

Definition entry (key summary : value) : value :=
  Obj [("key", key); ("summary", summary)].

(** [o[name] = { key: key, summary: summary }]. *)
Definition store (name : string) (key summary : value) (o : dictionary) : dictionary :=
  if String.eqb name "__proto__"
  then {| own := own o; proto := Some (key, summary) |}
  else {| own := <[name := entry key summary]> (own o); proto := proto o |}.

(** What [o[name]] evaluates to: a value that was stored, a built-in of
    [Object.prototype] (a function, or [Object.prototype] itself under
    [__proto__]), or [undefined]. *)
Inductive member : Type :=
| Stored (v : value)
| Builtin
| Absent.

Definition inherited (name : string) : member :=
  if existsb (String.eqb name) prototype_names then Builtin else Absent.

Definition read (o : dictionary) (name : string) : member :=
  if String.eqb name "__proto__" then
    match proto o with
    | Some (key, summary) => Stored (entry key summary)
    | None => Builtin
    end
  else
    match own o !! name with
    | Some stored => Stored stored
    | None =>
        match proto o with
        | Some (key, summary) =>
            if String.eqb name "key" then Stored key
            else if String.eqb name "summary" then Stored summary
            else inherited name
        | None => inherited name
        end
    end.

(** ToBoolean of a member, and [m.name] on a truthy one: a built-in has
    neither a [key] nor a [summary]. *)
Definition member_truthy (m : member) : bool :=
  match m with
  | Stored v => truthy v
  | Builtin => true
  | Absent => false
  end.

Definition member_get (m : member) (name : string) : value :=
  match m with
  | Stored v => get_opt v name
  | Builtin | Absent => Undefined
  end.

(** The parts of the runtime that the embedding does not spell out:
    parsing a string as a number (StringToNumber and [parseFloat]),
    printing a number that is not an integer below 2^53, and the time
    zone of the host, as the map from a local time to its UTC time
    value.  Every theorem holds for any choice of them. *)
Class Runtime : Type := {
  string_to_number : string -> spec_float;
  parse_float : string -> spec_float;
  number_to_string_wide : spec_float -> string;
  local_to_utc : Z -> Z
}.

Definition decimal (z : Z) : string := NilZero.string_of_int (Z.to_int z).

Section Coercions.
Context {rt : Runtime}.

(** Number::toString.  A finite double is [m * 2^e]; when that is an
    integer of magnitude below 2^53 its shortest round-trip form is its
    decimal expansion. *)
Definition number_to_string (x : spec_float) : string :=
  match x with
  | S754_nan => "NaN"
  | S754_infinity false => "Infinity"
  | S754_infinity true => "-Infinity"
  | S754_zero _ => "0"
  | S754_finite s m e =>
      let mag := if 0 <=? e then Z.pos m * 2 ^ e else Z.pos m / 2 ^ (- e) in
      let integral := if 0 <=? e then true else Z.pos m mod 2 ^ (- e) =? 0 in
      if integral && (mag <? 2 ^ 53)
      then (if s then "-" else "") ++ decimal mag
      else number_to_string_wide x
  end.

(** ToString; an array prints as [join(",")], where [null] and
    [undefined] elements print as nothing. *)
Fixpoint to_string (v : value) : string :=
  match v with
  | Undefined => "undefined"
  | Null => "null"
  | Bool b => if b then "true" else "false"
  | Num x => number_to_string x
  | Str s => s
  | Arr items =>
      (fix join_items (l : list value) : string :=
         match l with
         | [] => ""
         | x :: rest =>
             let sx := match x with Undefined | Null => "" | _ => to_string x end in
             match rest with
             | [] => sx
             | _ :: _ => sx ++ "," ++ join_items rest
             end
         end) items
  | Obj _ => "[object Object]"
  end.

(** ToPrimitive on JSON data: arrays and plain objects go through
    [toString]. *)
Definition to_primitive (v : value) : value :=
  match v with
  | Arr _ | Obj _ => Str (to_string v)
  | _ => v
  end.

(** ToNumber. *)
Definition to_number (v : value) : spec_float :=
  match v with
  | Undefined => S754_nan
  | Null => S754_zero false
  | Bool b => if b then num_of_Z 1 else S754_zero false
  | Num x => x
  | Str s => string_to_number s
  | Arr _ | Obj _ => string_to_number (to_string v)
  end.

(** [a + b]. *)
Definition add (a b : value) : value :=
  let pa := to_primitive a in
  let pb := to_primitive b in
  match pa, pb with
  | Str _, _ | _, Str _ => Str (to_string pa ++ to_string pb)
  | _, _ => Num (SFadd prec emax (to_number pa) (to_number pb))
  end.

(** [a / b]. *)
Definition div (a b : value) : spec_float :=
  SFdiv prec emax (to_number a) (to_number b).

(** [a > b] on numbers: false as soon as one side is NaN. *)
Definition num_gt (x y : spec_float) : bool := SFltb y x.

(** The digits of [toFixed(2)] for the integer [n] of hundredths: at
    least three digits, with the point before the last two. *)
Definition fixed2_digits (n : Z) : string :=
  let m := decimal n in
  let k := String.length m in
  let m := if (k <=? 2)%nat then
             (if (k =? 1)%nat then "00" else "0") ++ m
           else m in
  let k := String.length m in
  substring 0 (k - 2) m ++ "." ++ substring (k - 2) 2 m.

(** [x.toFixed(2)].  The integer [n] is the one for which [n / 100 - x]
    is closest to zero, the larger when there are two. *)
Definition to_fixed2 (x : spec_float) : string :=
  match x with
  | S754_zero _ => fixed2_digits 0
  | S754_finite s m e =>
      let sign := if s then "-" else "" in
      let big := if 0 <=? e then 10 ^ 21 <=? Z.pos m * 2 ^ e
                 else 10 ^ 21 * 2 ^ (- e) <=? Z.pos m in
      if big then sign ++ number_to_string (S754_finite false m e)
      else
        let n := if 0 <=? e then 100 * Z.pos m * 2 ^ e
                 else (200 * Z.pos m + 2 ^ (- e)) / 2 ^ (1 - e) in
        sign ++ fixed2_digits n
  | _ => number_to_string x
  end.

(** Equality of the elements of a [Set] (SameValueZero).  Arrays and
    objects compare by identity, and every array or object of a parsed
    JSON document is its own. *)
Definition same_value_zero (a b : value) : bool :=
  match a, b with
  | Undefined, Undefined | Null, Null => true
  | Bool x, Bool y => Bool.eqb x y
  | Num S754_nan, Num S754_nan => true
  | Num x, Num y => SFeqb x y
  | Str x, Str y => String.eqb x y
  | _, _ => false
  end.

End Coercions.

End JS.

(** ** Effects: the two HTTP clients and the logs *)

Module Eff.
Import JS.

(** The query of [GET /worklogs].  The offset is a double in the source;
    it advances by 50 from 0 and stays an exact integer far beyond any
    page count a run can reach, so it is kept as an integer here. *)
Record tempo_params : Type := {
  from : value;
  to : value;
  offset : Z;
  limit : Z
}.

(** The body of [POST /rest/api/3/search/jql]. *)
Record jira_search : Type := {
  jql : string;
  fields : list string;
  maxResults : Z
}.

Record jira_config : Type := {
  apiToken : string;
  email : value;
  baseUrl : value
}.

(** The collaborators.  A call resolves to the [data] of the response,
    or rejects with the client's error. *)
Record world : Type := {
  tempo_get : string -> tempo_params -> result value;
  jira_post : jira_config -> jira_search -> result value
}.

Inductive event : Type :=
| TempoGet (url : string) (params : tempo_params)
| JiraPost (url : string) (body : jira_search)
| ConsoleError (args : list value)
| ContextLog (args : list value)
| ContextLogError (args : list value).

(** A computation appends to the trace of events and ends with a value
    or a throw; [None] is a run that needs more loop iterations than the
    fuel allows. *)
Definition M (A : Type) : Type := list event -> option (result A * list event).

Definition ret {A} (a : A) : M A := fun tr => Some (Ok a, tr).
Definition lift {A} (r : result A) : M A := fun tr => Some (r, tr).
Definition emit (ev : event) : M unit := fun tr => Some (Ok tt, (tr ++ [ev])%list).
Definition out_of_fuel {A} : M A := fun _ => None.

Definition mbind {A B} (c : M A) (k : A -> M B) : M B :=
  fun tr =>
    match c tr with
    | Some (Ok a, tr') => k a tr'
    | Some (Throw e, tr') => Some (Throw e, tr')
    | None => None
    end.

(** The body of a [try]: its throw becomes a value for the [catch]. *)
Definition attempt {A} (c : M A) : M (result A) :=
  fun tr =>
    match c tr with
    | Some (r, tr') => Some (Ok r, tr')
    | None => None
    end.

Declare Scope eff_scope.
Delimit Scope eff_scope with eff.
Notation "x <- c ;; k" := (mbind c (fun x => k))
  (at level 100, c at next level, right associativity) : eff_scope.
Notation "c ;; k" := (mbind c (fun _ => k))
  (at level 100, right associativity) : eff_scope.

End Eff.

(** ** TempoService: normalisation *)

Module TempoService.
Import JS.

Section Normalizer.
Context {rt : Runtime}.

(** The arrow function of [transformWorklogs].  Only the first property
    read can throw: the later ones read the same [worklog]. *)
Definition transformWorklog (worklog : value) : result value :=
  let* tempoWorklogId := get worklog "tempoWorklogId" in
  let issue := get_opt worklog "issue" in
  let author := get_opt worklog "author" in
  Ok (Obj [
    ("id", tempoWorklogId);
    ("issueKey", or_else (get_opt issue "key") (Str "N/A"));
    ("issueId", or_else (get_opt issue "id") Null);
    ("issueSummary", or_else (get_opt issue "summary") Null);
    ("date", get_opt worklog "startDate");
    ("startTime", or_else (get_opt worklog "startTime") Null);
    ("timeSpentSeconds", get_opt worklog "timeSpentSeconds");
    ("timeSpentHours",
       Str (to_fixed2 (div (get_opt worklog "timeSpentSeconds") (int 3600))));
    ("description", or_else (get_opt worklog "description") (Str ""));
    ("author", Obj [
       ("accountId", or_else (get_opt author "accountId") Null);
       ("displayName", or_else (get_opt author "displayName") (Str "Unknown"))
     ]);
    ("createdAt", get_opt worklog "createdAt");
    ("updatedAt", get_opt worklog "updatedAt")
  ]).

(** [worklogs.map(...)]: left to right, stopping at the first throw. *)
Fixpoint transformWorklogs (worklogs : list value) : result (list value) :=
  match worklogs with
  | [] => Ok []
  | worklog :: rest =>
      let* r := transformWorklog worklog in
      let* rs := transformWorklogs rest in
      Ok (r :: rs)
  end.

End Normalizer.

Import Eff.
Local Open Scope eff_scope.

Section Service.
Context {rt : Runtime}.
Variable w : world.

(** The fields of a [TempoService] instance; [jiraClient] exists exactly
    when a Jira configuration was passed to the constructor. *)
Record t : Type := {
  this_apiToken : string;
  this_jiraConfig : option jira_config
}.

(** The constructor; the token goes into a header, as a string. *)
Definition new (apiToken : value) (jiraConfig : option jira_config) : t :=
  {| this_apiToken := to_string apiToken; this_jiraConfig := jiraConfig |}.

Definition client_get (this : t) (url : string) (params : tempo_params) : M value :=
  emit (TempoGet url params) ;; lift (tempo_get w (this_apiToken this) params).

Definition jiraClient_post (cfg : jira_config) (url : string) (body : jira_search) : M value :=
  emit (JiraPost url body) ;; lift (jira_post w cfg body).

(** [const { results, metadata } = response.data]. *)
Definition destructure_page (data : value) : result (value * value) :=
  match data with
  | Undefined =>
      Throw (TypeError "Cannot destructure property 'results' of 'response.data' as it is undefined.")
  | Null =>
      Throw (TypeError "Cannot destructure property 'results' of 'response.data' as it is null.")
  | _ => Ok (get_opt data "results", get_opt data "metadata")
  end.

(** [results.length > 0].  The length of an array or a string is
    positive exactly when it is not empty; any other value is compared
    through its own [length] property. *)
Definition length_positive (results : value) : bool :=
  match results with
  | Arr items => match items with [] => false | _ :: _ => true end
  | Str s => negb (String.eqb s "")
  | _ => num_gt (to_number (get_opt results "length")) (S754_zero false)
  end.

(** The [while (hasMore)] loop of [getWorklogs], one iteration per unit
    of fuel. *)
Fixpoint page_loop (this : t) (startDate endDate : value)
    (fuel : nat) (offset : Z) (allWorklogs : list value) : M (list value) :=
  match fuel with
  | O => out_of_fuel
  | S fuel' =>
      let limit := 50 in
      data <- client_get this "/worklogs"
                {| from := startDate; to := endDate; offset := offset; limit := limit |} ;;
      page <- lift (destructure_page data) ;;
      let '(results, metadata) := page in
      allWorklogs <-
        (if truthy results && length_positive results
         then pushed <- lift (iterate spread_complaint results) ;;
              ret (allWorklogs ++ pushed)%list
         else ret allWorklogs) ;;
      let hasMore := and_then metadata (get_opt metadata "next") in
      if truthy hasMore
      then page_loop this startDate endDate fuel' (offset + limit) allWorklogs
      else ret allWorklogs
  end.

(** [worklogs.map(w => w.issue?.id)]. *)
Fixpoint issue_ids (worklogs : list value) : result (list value) :=
  match worklogs with
  | [] => Ok []
  | w :: rest =>
      let* issue := get w "issue" in
      let* ids := issue_ids rest in
      Ok (get_opt issue "id" :: ids)
  end.

(** [[...new Set(xs)]]: first occurrences, in order. *)
Definition set_elements (xs : list value) : list value :=
  fold_left (fun seen x => if existsb (same_value_zero x) seen then seen else (seen ++ [x])%list)
            xs [].

(** The first loop of the [try] block: [issueMap[issue.id] = {...}].
    [issueMap] is an object literal used as a dictionary. *)
Fixpoint build_issue_map (issues : list value) (issueMap : dictionary)
  : result dictionary :=
  match issues with
  | [] => Ok issueMap
  | issue :: rest =>
      let* id := get issue "id" in
      let* key := get issue "key" in
      let* fields := get issue "fields" in
      let* summary := get fields "summary" in
      build_issue_map rest (store (to_string id) key summary issueMap)
  end.

(** [for (const issue of response.data.issues)] with its body, from an
    empty [issueMap]. *)
Definition issue_map_of (data : value) : result dictionary :=
  let* issues := get data "issues" in
  let* issues := iterate "response.data.issues is not iterable" issues in
  build_issue_map issues empty_dictionary.

(** The body of the second loop, on one worklog.  The two stores go
    into the [issue] object the worklog holds. *)
Definition enrich_worklog (issueMap : dictionary) (worklog : value) : result value :=
  let* issue := get worklog "issue" in
  let id := get_opt issue "id" in
  if truthy id && member_truthy (read issueMap (to_string id)) then
    let found := read issueMap (to_string id) in
    let issue := assign issue "key" (member_get found "key") in
    let issue := assign issue "summary" (member_get found "summary") in
    Ok (assign worklog "issue" issue)
  else Ok worklog.

(** The second loop mutates the collection in place: when an iteration
    throws, the worklogs before it stay enriched. *)
Fixpoint enrich_loop (issueMap : dictionary) (worklogs : list value)
  : result unit * list value :=
  match worklogs with
  | [] => (Ok tt, [])
  | worklog :: rest =>
      match enrich_worklog issueMap worklog with
      | Ok worklog' =>
          let '(r, rest') := enrich_loop issueMap rest in (r, worklog' :: rest')
      | Throw e => (Throw e, worklog :: rest)
      end
  end.

Definition console_error_jira (e : error) : M unit :=
  emit (ConsoleError [Str "Failed to fetch issue keys from Jira:"; Str (message e)]).

(** [enrichWithIssueKeys]; the result is the collection as the call
    leaves it. *)
Definition enrichWithIssueKeys (cfg : jira_config) (worklogs : list value) : M (list value) :=
  ids <- lift (issue_ids worklogs) ;;
  let issueIds := set_elements (List.filter truthy ids) in
  if (List.length issueIds =? 0)%nat then ret worklogs
  else
    let jql := "id in (" ++ to_string (Arr issueIds) ++ ")" in
    fetched <- attempt (
      data <- jiraClient_post cfg "/rest/api/3/search/jql"
                {| jql := jql; fields := ["key"; "summary"];
                   maxResults := Z.of_nat (List.length issueIds) |} ;;
      lift (issue_map_of data)) ;;
    match fetched with
    | Ok issueMap =>
        let '(r, worklogs') := enrich_loop issueMap worklogs in
        match r with
        | Ok _ => ret worklogs'
        | Throw error => console_error_jira error ;; ret worklogs'
        end
    | Throw error => console_error_jira error ;; ret worklogs
    end.

Definition getWorklogs (this : t) (fuel : nat) (startDate endDate : value) : M (list value) :=
  allWorklogs <- page_loop this startDate endDate fuel 0 [] ;;
  allWorklogs <-
    match this_jiraConfig this with
    | Some cfg =>
        if (0 <? List.length allWorklogs)%nat
        then enrichWithIssueKeys cfg allWorklogs
        else ret allWorklogs
    | None => ret allWorklogs
    end ;;
  lift (transformWorklogs allWorklogs).

End Service.
End TempoService.

(** ** The HTTP handler *)

Module Handler.
Import JS Eff.
Local Open Scope eff_scope.

(** [/^\d{4}-\d{2}-\d{2}$/]: a sequence of atoms matched against the
    whole string. *)
Inductive atom : Type :=
| Digit
| Lit (c : ascii).

Definition is_digit (c : ascii) : bool :=
  let n := Z.of_nat (nat_of_ascii c) in (48 <=? n) && (n <=? 57).

Fixpoint regex_test (pattern : list atom) (s : string) : bool :=
  match pattern, s with
  | [], EmptyString => true
  | Digit :: p, String c s' => is_digit c && regex_test p s'
  | Lit a :: p, String c s' => Ascii.eqb a c && regex_test p s'
  | _, _ => false
  end.

Definition dateRegex : list atom :=
  [Digit; Digit; Digit; Digit; Lit "-"; Digit; Digit; Lit "-"; Digit; Digit].

(** *** [new Date(string)] on the date-only form *)

Fixpoint digits_value (acc : Z) (s : string) : Z :=
  match s with
  | EmptyString => acc
  | String c s' => digits_value (10 * acc + (Z.of_nat (nat_of_ascii c) - 48)) s'
  end.

Definition DayFromYear (y : Z) : Z :=
  365 * (y - 1970) + (y - 1969) / 4 - (y - 1901) / 100 + (y - 1601) / 400.

Definition InLeapYear (y : Z) : bool :=
  (y mod 4 =? 0) && (negb (y mod 100 =? 0) || (y mod 400 =? 0)).

(** Days of the year before the first of month [m] (1 to 12). *)
Definition days_before_month (leap : bool) (m : Z) : Z :=
  let l := if leap then 1 else 0 in
  match m with
  | 1 => 0
  | 2 => 31
  | 3 => 59 + l
  | 4 => 90 + l
  | 5 => 120 + l
  | 6 => 151 + l
  | 7 => 181 + l
  | 8 => 212 + l
  | 9 => 243 + l
  | 10 => 273 + l
  | 11 => 304 + l
  | _ => 334 + l
  end.

Definition MakeDay (y m d : Z) : Z :=
  DayFromYear y + days_before_month (InLeapYear y) m + d - 1.

Definition msPerDay : Z := 86400000.

Section Dates.
Context {rt : Runtime}.

(** What Node's parser makes of three numbers [y-m-d] that are not a
    date of the ISO form, the month being outside 1..12 or the day
    outside 1..31.  It goes on with its legacy rules: a first number
    that can be a day (1..31) makes it read month, day, year, with a
    year below 50 taken in 20xx and the others in 19xx, at midnight
    local time; otherwise the numbers stay year, month, day and the
    date is invalid. *)
Definition legacy_date (y m d : Z) : option Z :=
  if (1 <=? y) && (y <=? 31) then
    let year := if d <=? 49 then d + 2000 else d + 1900 in
    if (y <=? 12) && (1 <=? m) && (m <=? 31)
    then Some (local_to_utc (msPerDay * MakeDay year y m))
    else None
  else None.

(** The time value of [new Date(s)], [None] for an invalid date.  Node's
    parser takes a date-only string of the ISO form as UTC midnight,
    with a month in 1..12 and a day in 1..31, and lets a day beyond the
    end of its month run into the next one.  The handler only builds
    dates from strings that passed [dateRegex]. *)
Definition date_parse (s : string) : option Z :=
  if regex_test dateRegex s then
    let y := digits_value 0 (substring 0 4 s) in
    let m := digits_value 0 (substring 5 2 s) in
    let d := digits_value 0 (substring 8 2 s) in
    if (1 <=? m) && (m <=? 12) && (1 <=? d) && (d <=? 31)
    then Some (msPerDay * MakeDay y m d)
    else legacy_date y m d
  else None.

Definition new_Date (v : value) : option Z :=
  match v with
  | Str s => date_parse s
  | _ => None
  end.

End Dates.

(** [a > b] on two dates: false as soon as one is invalid. *)
Definition date_gt (a b : option Z) : bool :=
  match a, b with
  | Some ta, Some tb => tb <? ta
  | _, _ => false
  end.

(** *** The request and the environment *)

(** [req.query] and [process.env]: string-valued dictionaries. *)
Definition dict : Type := list (string * string).

Fixpoint dict_get (d : dict) (name : string) : value :=
  match d with
  | [] => Undefined
  | (k, v) :: rest => if String.eqb k name then Str v else dict_get rest name
  end.

Definition json_headers : value := Obj [("Content-Type", Str "application/json")].

(** The object stored in [context.res]. *)
Definition res (status body : value) : value :=
  Obj [("status", status); ("headers", json_headers); ("body", body)].

Section Function.
Context {rt : Runtime}.
Variable w : world.
Variable env : dict.

(** The [try] block of the handler, after the worklogs have arrived. *)
Definition worklogs_response (startDate endDate format : value) (worklogs : list value)
  : value :=
  let totalSeconds :=
    fold_left (fun sum wl => add sum (get_opt wl "timeSpentSeconds")) worklogs (int 0) in
  let totalHours := to_fixed2 (div totalSeconds (int 3600)) in
  if strict_equals_string format "flat" then res (int 200) (Arr worklogs)
  else
    res (int 200) (Obj [
      ("success", Bool true);
      ("query", Obj [("startDate", startDate); ("endDate", endDate)]);
      ("summary", Obj [
         ("totalWorklogs", int (Z.of_nat (List.length worklogs)));
         ("totalHours", Num (parse_float totalHours));
         ("totalSeconds", totalSeconds)
       ]);
      ("worklogs", Arr worklogs)
    ]).

Definition respond_worklogs (fuel : nat) (tempoApiToken : value)
    (jiraConfig : option jira_config) (startDate endDate format : value) : M value :=
  let tempoService := TempoService.new tempoApiToken jiraConfig in
  worklogs <- TempoService.getWorklogs w tempoService fuel startDate endDate ;;
  ret (worklogs_response startDate endDate format worklogs).

(** The [catch] block of the handler. *)
Definition respond_failure (error : error) : M value :=
  emit (ContextLogError [Str "Error fetching worklogs:"; Str (message error)]) ;;
  let statusCode := or_else (get_opt (response error) "status") (int 500) in
  let errorMessage :=
    or_else (get_opt (get_opt (response error) "data") "message") (Str (message error)) in
  ret (res statusCode (Obj [
    ("error", Str "Failed to retrieve worklogs");
    ("message", errorMessage);
    ("details", or_else (get_opt (response error) "data") Null)
  ])).

(** [module.exports]: the value it leaves in [context.res]. *)
Definition handler (fuel : nat) (query : dict) : M value :=
  emit (ContextLog [Str "GetWorklogs function triggered"]) ;;
  let startDate := dict_get query "startDate" in
  let endDate := dict_get query "endDate" in
  let format := dict_get query "format" in
  if negb (truthy startDate) || negb (truthy endDate) then
    ret (res (int 400) (Obj [
      ("error", Str "Missing required parameters");
      ("message", Str "Both startDate and endDate query parameters are required (format: YYYY-MM-DD)");
      ("example", Str "/api/worklogs?startDate=2026-01-01&endDate=2026-01-31")
    ]))
  else if negb (regex_test dateRegex (to_string startDate))
          || negb (regex_test dateRegex (to_string endDate)) then
    ret (res (int 400) (Obj [
      ("error", Str "Invalid date format");
      ("message", Str "Dates must be in YYYY-MM-DD format");
      ("provided", Obj [("startDate", startDate); ("endDate", endDate)])
    ]))
  else if date_gt (new_Date startDate) (new_Date endDate) then
    ret (res (int 400) (Obj [
      ("error", Str "Invalid date range");
      ("message", Str "startDate must be before or equal to endDate")
    ]))
  else
    let tempoApiToken := dict_get env "TEMPO_API_TOKEN" in
    if negb (truthy tempoApiToken) then
      ret (res (int 500) (Obj [
        ("error", Str "Configuration error");
        ("message", Str "TEMPO_API_TOKEN is not configured")
      ]))
    else
      let jiraConfig :=
        if truthy (dict_get env "JIRA_API_TOKEN") then
          Some {| apiToken := to_string (dict_get env "JIRA_API_TOKEN");
                  email := dict_get env "JIRA_EMAIL";
                  baseUrl := dict_get env "JIRA_BASE_URL" |}
        else None in
      outcome <- attempt (respond_worklogs fuel tempoApiToken jiraConfig
                            startDate endDate format) ;;
      match outcome with
      | Ok r => ret r
      | Throw error => respond_failure error
      end.

End Function.
End Handler.

(** ** Worked examples: a runtime, payloads and collaborators *)

Module Examples.
Import JS Eff.

(** A runtime that reads unsigned decimal numbers ("62", "1.50"), which
    is all the examples parse; they never print a number outside the
    safe integers.  The host keeps UTC. *)
Definition unsigned_decimal (s : string) : spec_float :=
  let chars := list_ascii_of_string s in
  let whole := List.filter Handler.is_digit chars in
  let fraction :=
    match index 0 "." s with
    | Some i => Z.of_nat (String.length s) - Z.of_nat i - 1
    | None => 0
    end in
  let dots := (List.length chars - List.length whole)%nat in
  if (0 <? List.length whole)%nat && (dots <=? 1)%nat
     && (Nat.eqb dots 0 || (0 <? fraction))
  then SFdiv prec emax
         (num_of_Z (Handler.digits_value 0 (string_of_list_ascii whole)))
         (num_of_Z (10 ^ fraction))
  else S754_nan.

Definition runtime : Runtime := {|
  string_to_number := unsigned_decimal;
  parse_float := unsigned_decimal;
  number_to_string_wide := fun _ => "Infinity";
  local_to_utc := fun t => t
|}.

Definition worklog (id issue seconds : Z) : list (string * value) :=
  [("tempoWorklogId", int id);
   ("issue", Obj [("id", int issue)]);
   ("timeSpentSeconds", int seconds);
   ("startDate", Str "2026-01-05");
   ("startTime", Str "09:00:00");
   ("description", Str "Review");
   ("author", Obj [("accountId", Str "5b10a2844c20165700ede21g")]);
   ("createdAt", Str "2026-01-05T17:00:00Z");
   ("updatedAt", Str "2026-01-05T17:00:00Z")].

Definition first_page : list (list (string * value)) :=
  [worklog 1 10001 5400; worklog 2 10002 1800; worklog 3 10001 3600].

Definition second_page : list (list (string * value)) :=
  [worklog 4 10003 600; worklog 5 10002 7200].

Definition with_next : value :=
  Obj [("count", int 3); ("offset", int 0); ("limit", int 50);
       ("next", Str "https://api.tempo.io/4/worklogs?offset=50&limit=50")].

Definition without_next : value :=
  Obj [("count", int 2); ("offset", int 50); ("limit", int 50)].

Definition page (results : list (list (string * value))) (metadata : value) : value :=
  Obj [("results", Arr (map Obj results)); ("metadata", metadata)].

(** Tempo with five worklogs on two pages. *)
Definition tempo_two_pages (token : string) (params : tempo_params) : result value :=
  if offset params =? 0 then Ok (page first_page with_next)
  else if offset params =? 50 then Ok (page second_page without_next)
  else Ok (page [] without_next).

(** Tempo answering 503 to the second call. *)
Definition unavailable : error := {|
  message := "Request failed with status code 503";
  response := Obj [("status", int 503);
                   ("data", Obj [("message", Str "Service Unavailable")])]
|}.

Definition tempo_second_call_fails (token : string) (params : tempo_params)
  : result value :=
  if offset params =? 0 then Ok (page first_page with_next) else Throw unavailable.

(** Tempo holding fifty worklogs and serving them all at once, with no
    next marker. *)
Definition fifty : list value :=
  map (fun i => Obj (worklog (Z.of_nat i) 10001 60)) (seq 1 50).

Definition tempo_fifty (token : string) (params : tempo_params) : result value :=
  if offset params =? 0
  then Ok (Obj [("results", Arr fifty); ("metadata", Obj [("count", int 50)])])
  else Ok (Obj [("results", Arr []); ("metadata", Obj [("count", int 0)])]).

(** Jira knowing two of the three issues. *)
Definition jira_found (cfg : jira_config) (body : jira_search) : result value :=
  Ok (Obj [("issues", Arr [
    Obj [("id", Str "10001"); ("key", Str "PRJ-1");
         ("fields", Obj [("summary", Str "Set up the pipeline")])];
    Obj [("id", Str "10002"); ("key", Str "PRJ-2");
         ("fields", Obj [("summary", Str "Write the report")])]
  ])]).



Definition env : Handler.dict :=
  [("TEMPO_API_TOKEN", "tempo-token");
   ("JIRA_API_TOKEN", "jira-token");
   ("JIRA_EMAIL", "reports@example.com");
   ("JIRA_BASE_URL", "https://example.atlassian.net")].

Definition january : Handler.dict :=
  [("startDate", "2026-01-01"); ("endDate", "2026-01-31")].

Definition inverted : Handler.dict :=
  [("startDate", "2026-02-01"); ("endDate", "2026-01-01")].

(** Tempo holding a list of records and serving it in slices of 50,
    with a next marker on every full slice. *)
Definition tempo_sliced (records : list value) (token : string) (params : tempo_params)
  : result value :=
  let results := firstn 50 (skipn (Z.to_nat (offset params)) records) in
  Ok (Obj [("results", Arr results);
           ("metadata",
              if (List.length results =? 50)%nat then with_next else without_next)]).

Definition hundred_and_twenty : list value :=
  map (fun i => Obj (worklog (Z.of_nat i) 10001 60)) (seq 1 120).

Definition found : world :=
  {| tempo_get := tempo_two_pages; jira_post := jira_found |}.


Definition tempo_down : world :=
  {| tempo_get := tempo_second_call_fails; jira_post := jira_found |}.

Definition all_at_once : world :=
  {| tempo_get := tempo_fifty; jira_post := jira_found |}.

Definition sliced : world :=
  {| tempo_get := tempo_sliced hundred_and_twenty; jira_post := jira_found |}.

Definition jira_credentials : jira_config :=
  {| apiToken := "jira-token";
     email := Str "reports@example.com";
     baseUrl := Str "https://example.atlassian.net" |}.

Definition service : TempoService.t :=
  {| TempoService.this_apiToken := "tempo-token";
     TempoService.this_jiraConfig := Some jira_credentials |}.


End Examples.

(** * Properties *)

Import JS Eff.
Local Open Scope eff_scope.

(** ** Doubles *)

(** What [SpecFloat] computes for [s / 3600] when [s] is an integer: the
    conversion of [s] is exact, the division is correctly rounded, and
    the rounding to hundredths that [toFixed] then makes lands on a
    nearest hundredth of the exact quotient. *)

Section DoubleFacts.

(** The number of binary digits, as bounds. *)
Lemma digits2_pos_bounds (p : positive) :
  2 ^ (Z.pos (digits2_pos p) - 1) <= Z.pos p < 2 ^ Z.pos (digits2_pos p).
Proof.
  induction p as [p IH | p IH |]; cbn [digits2_pos]; rewrite ?Pos2Z.inj_succ.
  - replace (Z.succ (Z.pos (digits2_pos p)) - 1) with (Z.succ (Z.pos (digits2_pos p) - 1)) by lia.
    rewrite !Z.pow_succ_r by lia. lia.
  - replace (Z.succ (Z.pos (digits2_pos p)) - 1) with (Z.succ (Z.pos (digits2_pos p) - 1)) by lia.
    rewrite !Z.pow_succ_r by lia. lia.
  - cbn. lia.
Qed.

Lemma Zdigits2_eq (m d : Z) :
  0 < d -> 2 ^ (d - 1) <= m < 2 ^ d -> Zdigits2 m = d.
Proof.
  intros Hd [Hlo Hhi].
  assert (Hm : 0 < m) by (pose proof (Z.pow_pos_nonneg 2 (d - 1)); lia).
  destruct m as [|p|p]; try lia.
  cbn [Zdigits2]. pose proof (digits2_pos_bounds p) as [Hlo' Hhi'].
  set (k := Z.pos (digits2_pos p)) in *.
  assert (Hk : 0 < k) by (unfold k; lia).
  destruct (Z.lt_trichotomy k d) as [Hlt | [Heq | Hgt]]; [|exact Heq|].
  - pose proof (Z.pow_le_mono_r 2 k (d - 1) ltac:(lia) ltac:(lia)). lia.
  - pose proof (Z.pow_le_mono_r 2 d (k - 1) ltac:(lia) ltac:(lia)). lia.
Qed.

(** Shifting a mantissa to the left. *)
Lemma iter_xO (p k : positive) : Z.pos (Pos.iter xO p k) = Z.pos p * 2 ^ Z.pos k.
Proof.
  induction k as [|k IH] using Pos.peano_ind.
  - cbn. lia.
  - rewrite Pos.iter_succ, Pos2Z.inj_succ, Z.pow_succ_r by lia.
    rewrite Pos2Z.inj_xO, IH. lia.
Qed.

(** Rounding a 53-bit quotient: no shift, and a carry at most. *)
Lemma loc_of_record_of_loc (m : Z) (l : location) :
  shr_m (shr_record_of_loc m l) = m /\
  loc_of_shr_record (shr_record_of_loc m l) = l.
Proof. destruct l as [|[]]; split; reflexivity. Qed.

Lemma shr_fexp_stay (m e : Z) (l : location) :
  2 ^ 52 <= m < 2 ^ 53 -> -1074 <= e ->
  shr_fexp 53 1024 m e l = (shr_record_of_loc m l, e).
Proof.
  intros Hm He. unfold shr_fexp.
  rewrite (Zdigits2_eq m 53) by lia.
  unfold fexp, emin.
  replace (Z.max (53 + e - 53) (3 - 1024 - 53) - e) with 0 by lia.
  reflexivity.
Qed.

(** One shift to the right halves the mantissa and remembers the bit
    that falls off. *)
Lemma shr_1_pos (m : Z) (r s : bool) :
  0 < m ->
  shr_1 {| shr_m := m; shr_r := r; shr_s := s |}
  = {| shr_m := m / 2; shr_r := Z.odd m; shr_s := r || s |}.
Proof.
  intros Hm. destruct m as [|p|p]; try lia.
  destruct p as [p|p|]; cbn [shr_1].
  - f_equal. rewrite Pos2Z.inj_xI. apply (Z.div_unique _ _ _ 1); lia.
  - f_equal. rewrite Pos2Z.inj_xO. apply (Z.div_unique _ _ _ 0); lia.
  - reflexivity.
Qed.

Lemma shr_fexp_shift (m e : Z) (l : location) :
  2 ^ 53 <= m < 2 ^ 54 -> -1074 <= e ->
  shr_fexp 53 1024 m e l = (shr_1 (shr_record_of_loc m l), e + 1).
Proof.
  intros Hm He. unfold shr_fexp.
  rewrite (Zdigits2_eq m 54) by lia.
  unfold fexp, emin.
  replace (Z.max (54 + e - 53) (3 - 1024 - 53) - e) with 1 by lia.
  reflexivity.
Qed.

(** The last step of [binary_round_aux] on a mantissa of 53 bits, or of
    54 after a carry. *)
Lemma round_finish (sx : bool) (m e : Z) :
  2 ^ 52 <= m <= 2 ^ 53 -> -1074 <= e <= 970 ->
  exists M E,
    (let '(mrs, e') := shr_fexp 53 1024 m e loc_Exact in
     match shr_m mrs with
     | Z0 => S754_zero sx
     | Zpos m' => if e' <=? 1024 - 53 then S754_finite sx m' e' else S754_infinity sx
     | Zneg _ => S754_nan
     end) = S754_finite sx M E /\
    ((E = e /\ Z.pos M = m) \/ (E = e + 1 /\ 2 * Z.pos M = m /\ m = 2 ^ 53)).
Proof.
  intros Hm He.
  destruct (Z.eq_dec m (2 ^ 53)) as [-> | Hne].
  - rewrite shr_fexp_shift by lia. cbn [shr_record_of_loc].
    rewrite shr_1_pos by lia. cbn [shr_m].
    change (2 ^ 53 / 2) with (Z.pos (Z.to_pos (2 ^ 52))).
    cbv iota beta.
    replace (e + 1 <=? 1024 - 53) with true by (symmetry; apply Z.leb_le; lia).
    eexists _, _. split; [reflexivity|]. right. repeat split.
  - rewrite shr_fexp_stay by lia. cbn [shr_record_of_loc shr_m].
    destruct m as [|p|p]; try lia.
    replace (e <=? 1024 - 53) with true by (symmetry; apply Z.leb_le; lia).
    eexists _, _. split; [reflexivity|]. left. split; reflexivity.
Qed.

(** The nearest-even choice is within half a unit of the quotient
    [q + r / d] it rounds. *)
Lemma round_nearest_even_near (q r d : Z) :
  0 <= r < d -> Z.even d = true ->
  let l := new_location d r in
  let M := round_nearest_even q l in
  (M = q \/ M = q + 1) /\ - d <= 2 * (M * d) - 2 * (q * d + r) <= d.
Proof.
  intros Hr Heven. unfold new_location. rewrite Heven. unfold new_location_even.
  destruct (Z.eqb_spec r 0) as [-> | Hr0]; cbn [round_nearest_even].
  - split; [left; reflexivity | lia].
  - destruct (Z.compare_spec (2 * r) d) as [Heq | Hlt | Hgt]; cbn [round_nearest_even].
    + destruct (Z.even q); (split; [auto | lia]).
    + split; [left; reflexivity | lia].
    + split; [right; reflexivity | lia].
Qed.

(** The same after one shift to the right, for a 54-bit quotient. *)
Lemma round_shifted_near (q r d : Z) :
  0 < q -> 0 <= r < d -> Z.even d = true ->
  let l := new_location d r in
  let mrs := shr_1 (shr_record_of_loc q l) in
  let M := round_nearest_even (shr_m mrs) (loc_of_shr_record mrs) in
  (M = q / 2 \/ M = q / 2 + 1) /\ - d <= 2 * (M * d) - (q * d + r) <= d.
Proof.
  intros Hq Hr Heven. unfold new_location. rewrite Heven. unfold new_location_even.
  pose proof (Z.div_mod q 2 ltac:(lia)) as Hq2.
  pose proof (Zmod_odd q) as Hodd.
  destruct (Z.eqb_spec r 0) as [-> | Hr0].
  - cbn [shr_record_of_loc]. rewrite shr_1_pos by exact Hq. cbn [shr_m shr_r shr_s orb].
    destruct (Z.odd q); cbn [loc_of_shr_record round_nearest_even].
    + destruct (Z.even (q / 2)); split; auto; lia.
    + split; [left; reflexivity | lia].
  - destruct (Z.compare_spec (2 * r) d) as [Heq | Hlt | Hgt]; cbn [shr_record_of_loc];
      rewrite shr_1_pos by exact Hq; cbn [shr_m shr_r shr_s orb];
      destruct (Z.odd q); cbn [loc_of_shr_record round_nearest_even];
      (split; [auto | lia]).
Qed.

(** The mantissa of the double 3600, which is [d3600 * 2^-41]. *)
Definition d3600 : positive := 7916483719987200.

(** The double quotient of a 53-bit mantissa by 3600: a finite double
    within half a unit in the last place of the exact quotient. *)
Lemma div_3600_near (sx : bool) (m1 : positive) (e1 : Z) :
  2 ^ 52 <= Z.pos m1 < 2 ^ 53 -> -52 <= e1 <= 0 ->
  exists (M : positive) (k : Z),
    (k = 11 \/ k = 12) /\
    SFdiv 53 1024 (S754_finite sx m1 e1) (S754_finite false d3600 (-41))
    = S754_finite sx M (e1 - k) /\
    - 1800 <= 3600 * Z.pos M - Z.pos m1 * 2 ^ k <= 1800.
Proof.
  intros Hm1 He1.
  assert (Hd : Z.pos d3600 = 3600 * 2 ^ 41) by reflexivity.
  assert (Heven : Z.even (Z.pos d3600) = true) by reflexivity.
  assert (Hdig : Zdigits2 (Z.pos d3600) = 53) by reflexivity.
  generalize dependent d3600. intros m2 Hd Heven Hdig.
  cbn [SFdiv]. rewrite xorb_false_r. unfold SFdiv_core_binary.
  rewrite (Zdigits2_eq (Z.pos m1) 53), Hdig by lia.
  unfold fexp, emin.
  replace (Z.min (Z.max (53 + e1 - (53 + -41) - 53) (3 - 1024 - 53)) (e1 - -41))
    with (e1 - 12) by lia.
  replace (e1 - -41 - (e1 - 12)) with 53 by lia.
  cbv iota. rewrite Z.shiftl_mul_pow2 by lia.
  pose proof (Z_div_mod (Z.pos m1 * 2 ^ 53) (Z.pos m2) ltac:(lia)) as Hdiv.
  destruct (Z.div_eucl (Z.pos m1 * 2 ^ 53) (Z.pos m2)) as [q r].
  destruct Hdiv as [Heq Hr].
  assert (Hq : 2 ^ 52 <= q < 2 ^ 54) by (rewrite Hd in *; nia).
  unfold binary_round_aux.
  destruct (Z.lt_ge_cases q (2 ^ 53)) as [Hsmall | Hlarge].
  - rewrite shr_fexp_stay by lia.
    destruct (loc_of_record_of_loc q (new_location (Z.pos m2) r)) as [-> ->].
    destruct (round_nearest_even_near q r (Z.pos m2) Hr Heven) as [HM Hnear].
    cbv zeta in HM, Hnear.
    set (M0 := round_nearest_even q (new_location (Z.pos m2) r)) in *.
    clearbody M0.
    assert (Hkey : - (3600 * 2 ^ 41)
                   <= 2 * (M0 * (3600 * 2 ^ 41)) - 2 * (Z.pos m1 * 2 ^ 53)
                   <= 3600 * 2 ^ 41) by (rewrite Hd in *; lia).
    destruct (round_finish sx M0 (e1 - 12) ltac:(lia) ltac:(lia)) as (M & E & Hres & Hcase).
    destruct Hcase as [[-> HM0] | (-> & HM0 & _)].
    + exists M, 12. split; [right; reflexivity|]. split; [exact Hres|].
      clear - Hkey HM0. lia.
    + exists M, 11. split; [left; reflexivity|].
      split; [rewrite Hres; f_equal; lia|].
      clear - Hkey HM0. lia.
  - rewrite shr_fexp_shift by lia.
    destruct (round_shifted_near q r (Z.pos m2) ltac:(lia) Hr Heven) as [HM Hnear].
    cbv zeta in HM, Hnear.
    set (M0 := round_nearest_even _ _) in *.
    clearbody M0.
    assert (Hkey : - (3600 * 2 ^ 41)
                   <= 2 * (M0 * (3600 * 2 ^ 41)) - Z.pos m1 * 2 ^ 53
                   <= 3600 * 2 ^ 41) by (rewrite Hd in *; lia).
    assert (HM0 : 2 ^ 52 <= M0 < 2 ^ 53).
    { pose proof (Z.div_mod q 2 ltac:(lia)) as Hq2.
      pose proof (Z.mod_pos_bound q 2 ltac:(lia)) as Hq2'.
      split; [clear - HM Hlarge Hq2 Hq2'; lia | clear - Hkey Hm1; lia]. }
    destruct (round_finish sx M0 (e1 - 12 + 1) ltac:(lia) ltac:(lia)) as (M & E & Hres & Hcase).
    destruct Hcase as [[-> HM0'] | (_ & _ & Hcarry)]; [|lia].
    exists M, 11. split; [left; reflexivity|].
    split; [rewrite Hres; f_equal; lia|].
    clear - Hkey HM0'. lia.
Qed.

(** The double of a non-zero integer of magnitude below 2^53 is that
    integer, with a mantissa of 53 bits. *)
Lemma round_exact (sx : bool) (p : positive) :
  Z.pos p < 2 ^ 53 ->
  exists (m : positive) (e : Z),
    binary_round 53 1024 sx p 0 = S754_finite sx m e /\
    2 ^ 52 <= Z.pos m < 2 ^ 53 /\ -52 <= e <= 0 /\
    Z.pos m = Z.pos p * 2 ^ (- e).
Proof.
  intros Hs. unfold binary_round.
  pose proof (digits2_pos_bounds p) as Hp.
  set (d := Z.pos (digits2_pos p)) in *.
  assert (Hd : 1 <= d <= 53).
  { split; [unfold d; lia|].
    destruct (Z.le_gt_cases d 53) as [H | H]; [exact H|].
    pose proof (Z.pow_le_mono_r 2 53 (d - 1) ltac:(lia) ltac:(lia)). lia. }
  unfold fexp, emin.
  replace (Z.max (d + 0 - 53) (3 - 1024 - 53)) with (d - 53) by lia.
  assert (Hshift : exists mz : positive,
             shl_align p 0 (d - 53) = (mz, d - 53) /\
             Z.pos mz = Z.pos p * 2 ^ (53 - d)).
  { unfold shl_align. destruct (d - 53 - 0) as [|k|k] eqn:Ek; try lia.
    - exists p. split; [f_equal; lia|].
      replace (53 - d) with 0 by lia. lia.
    - exists (Pos.iter xO p k). split; [reflexivity|].
      rewrite iter_xO. f_equal. f_equal. lia. }
  destruct Hshift as (mz & -> & Hmz).
  assert (Hrange : 2 ^ 52 <= Z.pos mz < 2 ^ 53).
  { assert (E1 : 2 ^ 52 = 2 ^ (d - 1) * 2 ^ (53 - d))
      by (rewrite <- Z.pow_add_r by lia; f_equal; lia).
    assert (E2 : 2 ^ 53 = 2 ^ d * 2 ^ (53 - d))
      by (rewrite <- Z.pow_add_r by lia; f_equal; lia).
    pose proof (Z.pow_pos_nonneg 2 (53 - d) ltac:(lia) ltac:(lia)) as Hpos.
    rewrite Hmz, E1, E2. split.
    - apply Z.mul_le_mono_nonneg_r; lia.
    - apply Z.mul_lt_mono_pos_r; lia. }
  unfold binary_round_aux.
  rewrite shr_fexp_stay by lia. cbn [shr_record_of_loc shr_m loc_of_shr_record round_nearest_even].
  rewrite shr_fexp_stay by lia. cbn [shr_record_of_loc shr_m].
  replace (d - 53 <=? 1024 - 53) with true by (symmetry; apply Z.leb_le; lia).
  exists mz, (d - 53). split; [reflexivity|]. split; [exact Hrange|].
  split; [lia|]. rewrite Hmz. f_equal. f_equal. lia.
Qed.

(** Rounding seconds over 3600 to hundredths: from a double within
    half a unit in the last place of [a / 3600], the nearest integer to
    a hundred times the double is a nearest integer to [a / 36]. *)
Lemma hundredths_near (a M D : Z) :
  2 ^ 11 <= D ->
  - 1800 <= 3600 * M - a * D <= 1800 ->
  - 18 <= 36 * ((200 * M + D) / (2 * D)) - a <= 18.
Proof.
  intros HD Hnear.
  change (2 ^ 11) with 2048 in HD.
  pose proof (Z.div_mod (200 * M + D) (2 * D) ltac:(lia)) as Hdiv.
  pose proof (Z.mod_pos_bound (200 * M + D) (2 * D) ltac:(lia)) as Hmod.
  set (n := (200 * M + D) / (2 * D)) in *.
  set (r := (200 * M + D) mod (2 * D)) in *.
  assert (Hup : D * (72 * n - 2 * a - 36) <= 3600) by nia.
  assert (Hlo : D * (2 * a - 72 * n - 36) < 3600) by nia.
  split.
  - destruct (Z.le_gt_cases (2 * a - 72 * n - 36) 0) as [H | H]; [lia | nia].
  - destruct (Z.le_gt_cases (72 * n - 2 * a - 36) 0) as [H | H]; [lia | nia].
Qed.

End DoubleFacts.

(** ** Normalisation *)

Section NormalizerFacts.
Context {rt : Runtime}.

(** The record [transformWorklogs] builds from an object. *)
Definition record_of (props : list (string * value)) : value :=
  match TempoService.transformWorklog (Obj props) with
  | Ok record => record
  | Throw _ => Undefined
  end.



(** A [null] element of the collection is the one input that makes the
    mapping throw. *)
Lemma transformWorklog_null :
  TempoService.transformWorklog Null
  = Throw (TypeError "Cannot read properties of null (reading 'tempoWorklogId')").
Proof. reflexivity. Qed.

(** [toFixed(2)] on the quotient the division lemma describes. *)
Lemma to_fixed2_finite (sx : bool) (a : Z) (m1 : positive) (e1 : Z) (M : positive) (k : Z) :
  0 < a < 2 ^ 53 ->
  -52 <= e1 <= 0 ->
  Z.pos m1 = a * 2 ^ (- e1) ->
  k = 11 \/ k = 12 ->
  - 1800 <= 3600 * Z.pos M - Z.pos m1 * 2 ^ k <= 1800 ->
  exists n : Z,
    to_fixed2 (S754_finite sx M (e1 - k))
    = (if sx then "-" else "") ++ fixed2_digits n /\
    - 18 <= 36 * n - a <= 18.
Proof.
  intros Ha He1 Hval Hk Hnear.
  set (E := e1 - k). set (D := 2 ^ (- E)).
  assert (HE : E <= -11) by (unfold E; lia).
  assert (HD : 2 ^ 11 <= D) by (unfold D; apply Z.pow_le_mono_r; lia).
  assert (Hscale : Z.pos m1 * 2 ^ k = a * D).
  { rewrite Hval, <- Z.mul_assoc, <- Z.pow_add_r by lia.
    unfold D, E. f_equal. f_equal. lia. }
  rewrite Hscale in Hnear.
  unfold to_fixed2. fold E.
  replace (0 <=? E) with false by (symmetry; apply Z.leb_gt; lia).
  fold D.
  replace (10 ^ 21 * D <=? Z.pos M) with false.
  2: { symmetry. apply Z.leb_gt. change (2 ^ 11) with 2048 in HD.
       change (2 ^ 53) with 9007199254740992 in Ha.
       change (10 ^ 21) with 1000000000000000000000. nia. }
  replace (2 ^ (1 - E)) with (2 * D).
  2: { unfold D. replace (1 - E) with (Z.succ (- E)) by lia.
       rewrite Z.pow_succ_r by lia. reflexivity. }
  exists ((200 * Z.pos M + D) / (2 * D)). split; [reflexivity|].
  apply hundredths_near; assumption.
Qed.

Lemma or_else_falsy (a b : value) : truthy a = false -> or_else a b = b.
Proof. unfold or_else. intros ->. reflexivity. Qed.

Lemma or_else_truthy (a b : value) : truthy a = true -> or_else a b = a.
Proof. unfold or_else. intros ->. reflexivity. Qed.



(** [int s / 3600] printed with [toFixed(2)]. *)
Lemma to_fixed2_seconds (s : Z) :
  - 2 ^ 53 < s < 2 ^ 53 ->
  exists n : Z,
    to_fixed2 (div (int s) (int 3600))
    = (if s <? 0 then "-" else "") ++ fixed2_digits n /\
    - 18 <= 36 * n - Z.abs s <= 18.
Proof.
  intros Hs. unfold div, int, to_number.
  change (num_of_Z 3600) with (S754_finite false d3600 (-41)).
  destruct s as [|p|p].
  - exists 0. split; [reflexivity | lia].
  - unfold num_of_Z, prec, emax. cbn [binary_normalize].
    destruct (round_exact false p ltac:(lia)) as (m1 & e1 & -> & Hm1 & He1 & Hval).
    destruct (div_3600_near false m1 e1 Hm1 He1) as (M & k & Hk & -> & Hnear).
    apply (to_fixed2_finite false (Z.pos p) m1 e1 M k); assumption || lia.
  - unfold num_of_Z, prec, emax. cbn [binary_normalize].
    destruct (round_exact true p ltac:(lia)) as (m1 & e1 & -> & Hm1 & He1 & Hval).
    destruct (div_3600_near true m1 e1 Hm1 He1) as (M & k & Hk & -> & Hnear).
    apply (to_fixed2_finite true (Z.pos p) m1 e1 M k); assumption || lia.
Qed.


End NormalizerFacts.

(** ** The page loop *)

Section FetcherFacts.
Context {rt : Runtime}.
Variable w : world.
Variable this : TempoService.t.
Variables startDate endDate : value.

(** [metadata && metadata.next] is truthy. *)
Definition next_marker (metadata : value) : bool :=
  truthy (and_then metadata (get_opt metadata "next")).

(** The [i]-th call of a run and the page it is answered with. *)
Definition params_at (i : nat) : tempo_params :=
  {| from := startDate; to := endDate; offset := 50 * Z.of_nat i; limit := 50 |}.

Definition call_at (i : nat) : event := TempoGet "/worklogs" (params_at i).

Definition calls_from (i n : nat) : list event := map call_at (seq i n).

(** The [i]-th call is answered with a page whose [results] is the
    array [results] and whose [metadata] is [metadata], whatever else
    the response holds. *)
Definition served (i : nat) (results : list value) (metadata : value) : Prop :=
  exists data : value,
    tempo_get w (TempoService.this_apiToken this) (params_at i) = Ok data /\
    TempoService.destructure_page data = Ok (Arr results, metadata).

Definition rejected (i : nat) (e : error) : Prop :=
  tempo_get w (TempoService.this_apiToken this) (params_at i) = Throw e.

Local Abbreviation loop := (TempoService.page_loop w this startDate endDate).

Lemma offset_succ (i : nat) : 50 * Z.of_nat i + 50 = 50 * Z.of_nat (S i).
Proof. lia. Qed.

Lemma page_loop_served fuel i acc tr results metadata :
  served i results metadata ->
  loop (S fuel) (50 * Z.of_nat i) acc tr
  = if next_marker metadata
    then loop fuel (50 * Z.of_nat (S i)) (acc ++ results)%list (tr ++ [call_at i])%list
    else Some (Ok (acc ++ results)%list, (tr ++ [call_at i])%list).
Proof.
  intros (data & Hcall & Hpage).
  cbn [TempoService.page_loop].
  unfold mbind at 1, TempoService.client_get, mbind at 1, emit, lift.
  fold (params_at i). rewrite Hcall.
  unfold mbind at 1. rewrite Hpage.
  fold (next_marker metadata). rewrite offset_succ.
  destruct results as [|r results]; cbn; rewrite ?app_nil_r;
    destruct (next_marker metadata); reflexivity.
Qed.

Lemma page_loop_rejected fuel i acc tr e :
  rejected i e ->
  loop (S fuel) (50 * Z.of_nat i) acc tr = Some (Throw e, (tr ++ [call_at i])%list).
Proof.
  intros Hrej. unfold rejected in Hrej.
  cbn [TempoService.page_loop].
  unfold mbind at 1, TempoService.client_get, mbind at 1, emit, lift.
  fold (params_at i). rewrite Hrej. reflexivity.
Qed.

Lemma calls_from_snoc (i n : nat) :
  calls_from i (S n) = (calls_from i n ++ [call_at (i + n)])%list.
Proof. unfold calls_from. rewrite seq_S, map_app. reflexivity. Qed.

Lemma calls_from_cons (i n : nat) :
  calls_from i (S n) = call_at i :: calls_from (S i) n.
Proof. reflexivity. Qed.

(** A run of pages that all carry a next marker: the loop consumes
    them in order and goes on with the call after the last one. *)
Lemma page_loop_run (pages : list (list value * value)) :
  forall fuel i acc tr,
    (forall (j : nat) results metadata,
        pages !! j = Some (results, metadata) ->
        served (i + j) results metadata /\ next_marker metadata = true) ->
    loop (List.length pages + fuel) (50 * Z.of_nat i) acc tr
    = loop fuel (50 * Z.of_nat (i + List.length pages))
        (acc ++ concat (map fst pages))%list
        (tr ++ calls_from i (List.length pages))%list.
Proof.
  induction pages as [|[results metadata] pages IH]; intros fuel i acc tr Hpages.
  - cbn. rewrite Nat.add_0_r, !app_nil_r. reflexivity.
  - destruct (Hpages 0%nat results metadata eq_refl) as [Hserved Hnext].
    rewrite Nat.add_0_r in Hserved.
    cbn [List.length Nat.add].
    rewrite (page_loop_served _ _ _ _ _ _ Hserved), Hnext.
    rewrite IH.
    + cbn [map fst concat]. rewrite calls_from_cons.
      rewrite <- !app_assoc. cbn [app].
      replace (S i + List.length pages)%nat with (i + S (List.length pages))%nat by lia.
      reflexivity.
    + intros j r m Hj.
      replace (S i + j)%nat with (i + S j)%nat by lia.
      apply (Hpages (S j)). exact Hj.
Qed.

(** The run ends at the first page without a marker... *)
Lemma page_loop_complete pages last_results last_metadata fuel tr :
  (forall (j : nat) results metadata,
      pages !! j = Some (results, metadata) ->
      served j results metadata /\ next_marker metadata = true) ->
  served (List.length pages) last_results last_metadata ->
  next_marker last_metadata = false ->
  loop (List.length pages + S fuel) 0 [] tr
  = Some (Ok (concat (map fst pages) ++ last_results)%list,
          (tr ++ calls_from 0 (S (List.length pages)))%list).
Proof.
  intros Hpages Hlast Hstop.
  change 0 with (50 * Z.of_nat 0).
  rewrite page_loop_run by exact Hpages.
  cbn [Nat.add app].
  rewrite (page_loop_served _ _ _ _ _ _ Hlast), Hstop.
  rewrite calls_from_snoc, app_assoc. reflexivity.
Qed.

(** ... or at the first call that is rejected. *)
Lemma page_loop_aborts pages e fuel tr :
  (forall (j : nat) results metadata,
      pages !! j = Some (results, metadata) ->
      served j results metadata /\ next_marker metadata = true) ->
  rejected (List.length pages) e ->
  loop (List.length pages + S fuel) 0 [] tr
  = Some (Throw e, (tr ++ calls_from 0 (S (List.length pages)))%list).
Proof.
  intros Hpages Hrej.
  change 0 with (50 * Z.of_nat 0).
  rewrite page_loop_run by exact Hpages.
  cbn [Nat.add app].
  rewrite (page_loop_rejected _ _ _ _ _ Hrej).
  rewrite calls_from_snoc, app_assoc. reflexivity.
Qed.

(** An upstream that holds a fixed list of records answers the [i]-th
    call with the [i]-th slice of 50. *)
Definition slice (records : list value) (i : nat) : list value :=
  firstn 50 (skipn (50 * i) records).

Lemma firstn_plus {A} (n m : nat) (l : list A) :
  firstn (n + m) l = (firstn n l ++ firstn m (skipn n l))%list.
Proof.
  revert l. induction n as [|n IH]; intros l; [reflexivity|].
  destruct l as [|x l]; [cbn; rewrite firstn_nil; reflexivity|].
  cbn. rewrite IH. reflexivity.
Qed.

Lemma slices_concat (records : list value) (k : nat) :
  concat (map (slice records) (seq 0 k)) = firstn (50 * k) records.
Proof.
  induction k as [|k IH]; [reflexivity|].
  rewrite seq_S, map_app, concat_app, IH. cbn [map concat Nat.add].
  rewrite app_nil_r. unfold slice.
  replace (50 * S k)%nat with (50 * k + 50)%nat by lia.
  rewrite firstn_plus. reflexivity.
Qed.

Lemma slice_full (records : list value) (i : nat) :
  (List.length (slice records i) =? 50)%nat = (50 * S i <=? List.length records)%nat.
Proof.
  unfold slice. rewrite length_firstn, length_skipn.
  destruct (Nat.leb_spec (50 * S i) (List.length records)) as [H | H].
  - apply Nat.eqb_eq. lia.
  - apply Nat.eqb_neq. lia.
Qed.

(** C2 (as amended): the loop stops at the first response without a
    next marker, after one call per response: [k + 1] calls when the
    first [k] responses carry the marker, a single call when the first
    response has none, empty or not.  Against an upstream that holds [N]
    records, serves them in slices of 50 and sets the marker exactly on
    the full slices, that makes [N / 50 + 1 = ceil((N + 1) / 50)] calls,
    and all [N] records are returned. *)
Theorem page_loop_calls :
  (forall pages last_results last_metadata fuel tr,
      (forall (j : nat) results metadata,
          pages !! j = Some (results, metadata) ->
          served j results metadata /\ next_marker metadata = true) ->
      served (List.length pages) last_results last_metadata ->
      next_marker last_metadata = false ->
      (List.length pages < fuel)%nat ->
      loop fuel 0 [] tr
      = Some (Ok (concat (map fst pages) ++ last_results)%list,
              (tr ++ calls_from 0 (S (List.length pages)))%list)) /\
  (forall first_results first_metadata fuel tr,
      served 0 first_results first_metadata ->
      next_marker first_metadata = false ->
      (0 < fuel)%nat ->
      loop fuel 0 [] tr = Some (Ok first_results, (tr ++ [call_at 0])%list)) /\
  (forall (records : list value) (metadata_at : nat -> value) fuel tr,
      (forall i, served i (slice records i) (metadata_at i)) ->
      (forall i, next_marker (metadata_at i)
                 = (List.length (slice records i) =? 50)%nat) ->
      (List.length records / 50 < fuel)%nat ->
      loop fuel 0 [] tr
      = Some (Ok records, (tr ++ calls_from 0 (List.length records / 50 + 1))%list) /\
      List.length (calls_from 0 (List.length records / 50 + 1))
      = ((List.length records + 1 + 49) / 50)%nat).
Proof.
  split; [|split].
  - intros pages last_results last_metadata fuel tr Hpages Hlast Hstop Hfuel.
    replace fuel with (List.length pages + S (fuel - S (List.length pages)))%nat by lia.
    apply (page_loop_complete pages last_results last_metadata); assumption.
  - intros first_results first_metadata fuel tr Hfirst Hstop Hfuel.
    destruct fuel as [|fuel]; [lia|].
    change 0 with (50 * Z.of_nat 0).
    rewrite (page_loop_served _ _ _ _ _ _ Hfirst), Hstop. reflexivity.
  - intros records metadata_at fuel tr Hserved Hmarker Hfuel.
    set (N := List.length records) in *.
    set (k := (N / 50)%nat) in *.
    pose proof (Nat.div_mod_eq N 50) as Hdiv.
    pose proof (Nat.mod_upper_bound N 50 ltac:(lia)) as Hmod.
    fold k in Hdiv.
    set (pages := map (fun i => (slice records i, metadata_at i)) (seq 0 k)).
    assert (Hlen : List.length pages = k).
    { unfold pages. rewrite length_map, length_seq. reflexivity. }
    split.
    + replace fuel with (List.length pages + S (fuel - S k))%nat by lia.
      rewrite (page_loop_complete pages (slice records k) (metadata_at k)).
      * rewrite Hlen. replace (k + 1)%nat with (S k) by lia.
        f_equal. f_equal. f_equal.
        unfold pages. rewrite map_map. cbn [fst].
        rewrite slices_concat. unfold slice.
        rewrite <- firstn_plus. apply firstn_all2. fold N. lia.
      * intros j results metadata Hj. unfold pages in Hj.
        rewrite list_lookup_fmap in Hj.
        destruct (seq 0 k !! j) as [i|] eqn:Ei; [|discriminate].
        apply lookup_seq in Ei. destruct Ei as [-> Hjk].
        cbn in Hj. injection Hj as <- <-.
        split; [apply Hserved|].
        rewrite Hmarker, slice_full. apply Nat.leb_le. fold N. lia.
      * rewrite Hlen. apply Hserved.
      * rewrite Hmarker, slice_full. apply Nat.leb_gt. fold N. lia.
    + unfold calls_from. rewrite length_map, length_seq.
      replace (N + 1 + 49)%nat with (N + 1 * 50)%nat by lia.
      rewrite Nat.div_add by lia. reflexivity.
Qed.

End FetcherFacts.

(** ** Object literals *)

Section ObjectFacts.



(** Storing twice under one name is storing the last value once. *)
Lemma set_prop_twice (name : string) (v v' : value) (props : list (string * value)) :
  set_prop name v' (set_prop name v props) = set_prop name v' props.
Proof.
  induction props as [|[k x] props IH]; cbn.
  - rewrite String.eqb_refl. reflexivity.
  - destruct (String.eqb k name) eqn:E; cbn; rewrite E; [reflexivity|].
    rewrite IH. reflexivity.
Qed.





Lemma assign_twice (target : value) (name : string) (v v' : value) :
  assign (assign target name v) name v' = assign target name v'.
Proof. destruct target; try reflexivity. cbn. rewrite set_prop_twice. reflexivity. Qed.


End ObjectFacts.

(** ** Enrichment *)

Section EnricherFacts.
Context {rt : Runtime}.
Variable w : world.
Variable cfg : jira_config.







Definition failure_event (e : error) : event :=
  ConsoleError [Str "Failed to fetch issue keys from Jira:"; Str (message e)].
























End EnricherFacts.

(** ** The pipeline of [getWorklogs] *)

Section PipelineFacts.
Context {rt : Runtime}.
Variable w : world.
Variable this : TempoService.t.
Variables startDate endDate : value.












End PipelineFacts.

(** ** The handler *)

Section CalendarFacts.
Context {rt : Runtime}.
Import Handler.

(** The YYYY-MM-DD shape, position by position. *)
Definition yyyy_mm_dd (s : string) : Prop :=
  String.length s = 10%nat /\
  forall (i : nat) (c : ascii),
    String.get i s = Some c ->
    if (i =? 4)%nat || (i =? 7)%nat then c = "-"%char else is_digit c = true.

Lemma regex_test_digit (p : list atom) (s : string) :
  regex_test (Digit :: p) s = true ->
  exists c s', s = String c s' /\ is_digit c = true /\ regex_test p s' = true.
Proof.
  destruct s as [|c s']; [discriminate|]. cbn [regex_test].
  intros H. apply andb_prop in H. destruct H. eauto.
Qed.

Lemma regex_test_lit (a : ascii) (p : list atom) (s : string) :
  regex_test (Lit a :: p) s = true ->
  exists s', s = String a s' /\ regex_test p s' = true.
Proof.
  destruct s as [|c s']; [discriminate|]. cbn [regex_test].
  intros H. apply andb_prop in H. destruct H as [H1 H2].
  apply Ascii.eqb_eq in H1. subst. eauto.
Qed.

Lemma regex_test_end (s : string) : regex_test [] s = true -> s = "".
Proof. destruct s; [reflexivity | discriminate]. Qed.

Ltac peel_regex H :=
  repeat first
    [ apply regex_test_digit in H; destruct H as (? & ? & -> & ? & H)
    | apply regex_test_lit in H; destruct H as (? & -> & H)
    | apply regex_test_end in H; subst ].

Lemma dateRegex_shape (s : string) :
  regex_test dateRegex s = true <-> yyyy_mm_dd s.
Proof.
  split.
  - intros H. unfold dateRegex in H. peel_regex H.
    split; [reflexivity|].
    intros i c Hget.
    do 10 (destruct i as [|i];
           [cbn in Hget; injection Hget as <-; cbn; first [assumption | reflexivity]|]).
    cbn in Hget. discriminate.
  - intros [Hlen Hall].
    do 10 (destruct s as [|? s]; [discriminate Hlen|]).
    destruct s; [|discriminate Hlen].
    pose proof (Hall 0%nat _ eq_refl) as H0. pose proof (Hall 1%nat _ eq_refl) as H1.
    pose proof (Hall 2%nat _ eq_refl) as H2. pose proof (Hall 3%nat _ eq_refl) as H3.
    pose proof (Hall 4%nat _ eq_refl) as H4. pose proof (Hall 5%nat _ eq_refl) as H5.
    pose proof (Hall 6%nat _ eq_refl) as H6. pose proof (Hall 7%nat _ eq_refl) as H7.
    pose proof (Hall 8%nat _ eq_refl) as H8. pose proof (Hall 9%nat _ eq_refl) as H9.
    cbn in H0, H1, H2, H3, H4, H5, H6, H7, H8, H9. subst.
    cbn. rewrite H0, H1, H2, H3, H5, H6, H8, H9. reflexivity.
Qed.

(** Calendar dates. *)
Definition days_in_month (y m : Z) : Z :=
  match m with
  | 2 => if InLeapYear y then 29 else 28
  | 4 | 6 | 9 | 11 => 30
  | _ => 31
  end.

Definition ymd_of (s : string) : Z * Z * Z :=
  (digits_value 0 (substring 0 4 s),
   digits_value 0 (substring 5 2 s),
   digits_value 0 (substring 8 2 s)).

(** The date a well-formed string names, when there is such a day. *)
Definition calendar_date (s : string) : option (Z * Z * Z) :=
  let '(y, m, d) := ymd_of s in
  if regex_test dateRegex s
     && (1 <=? m) && (m <=? 12) && (1 <=? d) && (d <=? days_in_month y m)
  then Some (y, m, d)
  else None.

Definition ymd_after (a b : Z * Z * Z) : Prop :=
  let '(y1, m1, d1) := a in
  let '(y2, m2, d2) := b in
  y2 < y1 \/ (y1 = y2 /\ (m2 < m1 \/ (m1 = m2 /\ d2 < d1))).

Lemma DayFromYear_mono (y y' : Z) : y <= y' -> DayFromYear y <= DayFromYear y'.
Proof. unfold DayFromYear. intros H. Z.div_mod_to_equations. lia. Qed.

Lemma DayFromYear_succ (y : Z) :
  DayFromYear (y + 1) = DayFromYear y + 365 + (if InLeapYear y then 1 else 0).
Proof.
  unfold DayFromYear, InLeapYear.
  destruct (y mod 4 =? 0) eqn:E4; destruct (y mod 100 =? 0) eqn:E100;
    destruct (y mod 400 =? 0) eqn:E400; cbn [andb orb negb];
    rewrite ?Z.eqb_eq, ?Z.eqb_neq in *; Z.div_mod_to_equations; lia.
Qed.

Lemma month_cases (m : Z) :
  1 <= m <= 12 ->
  m = 1 \/ m = 2 \/ m = 3 \/ m = 4 \/ m = 5 \/ m = 6 \/
  m = 7 \/ m = 8 \/ m = 9 \/ m = 10 \/ m = 11 \/ m = 12.
Proof. lia. Qed.

Ltac each_month H :=
  destruct (month_cases _ H) as [-> | [-> | [-> | [-> | [-> | [-> |
           [-> | [-> | [-> | [-> | [-> | ->]]]]]]]]]]].

Lemma day_of_year_bounds (leap : bool) (y m d : Z) :
  InLeapYear y = leap ->
  1 <= m <= 12 -> 1 <= d <= days_in_month y m ->
  0 <= days_before_month leap m + d - 1 < 365 + (if leap then 1 else 0).
Proof.
  intros Hleap Hm. unfold days_in_month. rewrite Hleap.
  each_month Hm; destruct leap; cbn; lia.
Qed.

Lemma day_of_year_mono (leap : bool) (y m1 d1 m2 d2 : Z) :
  InLeapYear y = leap ->
  1 <= m1 <= 12 -> 1 <= m2 <= 12 ->
  1 <= d1 -> 1 <= d2 <= days_in_month y m2 ->
  m2 < m1 ->
  days_before_month leap m2 + d2 < days_before_month leap m1 + d1.
Proof.
  intros Hleap Hm1 Hm2. unfold days_in_month. rewrite Hleap.
  each_month Hm1; each_month Hm2; destruct leap; cbn; lia.
Qed.

(** The day number grows with the calendar order. *)
Lemma MakeDay_after (y1 m1 d1 y2 m2 d2 : Z) :
  1 <= m1 <= 12 -> 1 <= d1 <= days_in_month y1 m1 ->
  1 <= m2 <= 12 -> 1 <= d2 <= days_in_month y2 m2 ->
  ymd_after (y1, m1, d1) (y2, m2, d2) ->
  MakeDay y2 m2 d2 < MakeDay y1 m1 d1.
Proof.
  intros Hm1 Hd1 Hm2 Hd2 Hafter. unfold MakeDay.
  pose proof (day_of_year_bounds _ y1 m1 d1 eq_refl Hm1 Hd1) as B1.
  pose proof (day_of_year_bounds _ y2 m2 d2 eq_refl Hm2 Hd2) as B2.
  destruct Hafter as [Hy | [-> [Hm | [-> Hd]]]].
  - pose proof (DayFromYear_mono (y2 + 1) y1 ltac:(lia)) as Hmono.
    rewrite DayFromYear_succ in Hmono. lia.
  - pose proof (day_of_year_mono _ y2 m1 d1 m2 d2 eq_refl Hm1 Hm2
                  ltac:(lia) Hd2 Hm) as H.
    lia.
  - lia.
Qed.

Lemma calendar_date_parse (s : string) (y m d : Z) :
  calendar_date s = Some (y, m, d) ->
  regex_test dateRegex s = true /\
  date_parse s = Some (msPerDay * MakeDay y m d) /\
  1 <= m <= 12 /\ 1 <= d <= days_in_month y m.
Proof.
  unfold calendar_date, date_parse, ymd_of.
  set (yy := digits_value 0 (substring 0 4 s)).
  set (mm := digits_value 0 (substring 5 2 s)).
  set (dd := digits_value 0 (substring 8 2 s)).
  destruct (regex_test dateRegex s); [|discriminate].
  cbn [andb].
  destruct (1 <=? mm) eqn:E1; [|discriminate].
  destruct (mm <=? 12) eqn:E2; [|discriminate].
  destruct (1 <=? dd) eqn:E3; [|discriminate].
  destruct (dd <=? days_in_month yy mm) eqn:E4; [|discriminate].
  cbn [andb]. intros H. injection H as <- <- <-.
  apply Z.leb_le in E1, E2, E3, E4.
  assert (Hdim : days_in_month yy mm <= 31).
  { unfold days_in_month. each_month (conj E1 E2); destruct (InLeapYear yy); lia. }
  assert (E5 : (dd <=? 31) = true) by (apply Z.leb_le; lia).
  rewrite E5. repeat split; assumption.
Qed.

End CalendarFacts.

Section HandlerFacts.
Context {rt : Runtime}.
Variable w : world.
Variable env : Handler.dict.
Import Handler.

Definition entry_event : event := ContextLog [Str "GetWorklogs function triggered"].

(** The Jira configuration and the service the handler builds from the
    environment. *)
Definition jira_config_of_env : option jira_config :=
  if truthy (dict_get env "JIRA_API_TOKEN") then
    Some {| apiToken := to_string (dict_get env "JIRA_API_TOKEN");
            email := dict_get env "JIRA_EMAIL";
            baseUrl := dict_get env "JIRA_BASE_URL" |}
  else None.

Definition service_of_env : TempoService.t :=
  TempoService.new (dict_get env "TEMPO_API_TOKEN") jira_config_of_env.

(** A request that passes the three checks. *)
Definition accepted (query : dict) : Prop :=
  truthy (dict_get query "startDate") = true /\
  truthy (dict_get query "endDate") = true /\
  regex_test dateRegex (to_string (dict_get query "startDate")) = true /\
  regex_test dateRegex (to_string (dict_get query "endDate")) = true /\
  date_gt (new_Date (dict_get query "startDate")) (new_Date (dict_get query "endDate"))
  = false.

Definition configured : Prop := truthy (dict_get env "TEMPO_API_TOKEN") = true.

(** The body of a response that carries an error label and a message. *)
Definition error_body (body : value) : Prop :=
  exists label text, get_opt body "error" = Str label /\ get_opt body "message" = Str text.

Lemma dict_get_value (d : dict) (name : string) :
  dict_get d name = Undefined \/ exists s, dict_get d name = Str s.
Proof.
  induction d as [|[k v] d IH]; cbn; [left; reflexivity|].
  destruct (String.eqb k name); [right; eauto | exact IH].
Qed.

Lemma handler_accepted (fuel : nat) (query : dict) (tr : list event) :
  accepted query -> configured ->
  handler w env fuel query tr
  = match TempoService.getWorklogs w service_of_env fuel
            (dict_get query "startDate") (dict_get query "endDate")
            (tr ++ [entry_event])%list with
    | Some (Ok worklogs, tr') =>
        Some (Ok (worklogs_response (dict_get query "startDate")
                    (dict_get query "endDate") (dict_get query "format") worklogs), tr')
    | Some (Throw e, tr') => respond_failure e tr'
    | None => None
    end.
Proof.
  intros (Hstart & Hend & Hfmt1 & Hfmt2 & Hrange) Hconf. unfold configured in Hconf.
  unfold handler. unfold mbind at 1, emit.
  rewrite Hstart, Hend, Hfmt1, Hfmt2, Hrange, Hconf. cbn [negb orb].
  unfold mbind at 1, attempt, respond_worklogs, mbind at 1.
  fold jira_config_of_env. fold service_of_env. fold entry_event.
  destruct (TempoService.getWorklogs _ _ _ _ _ _) as [[[worklogs|e] tr']|]; reflexivity.
Qed.

(** A rejected request: the response is a 400 and the trace gains only
    the entry log. *)
Lemma handler_missing (fuel : nat) (query : dict) (tr : list event) :
  truthy (dict_get query "startDate") = false \/
  truthy (dict_get query "endDate") = false ->
  exists body,
    handler w env fuel query tr
    = Some (Ok (res (int 400) body), (tr ++ [entry_event])%list) /\
    error_body body.
Proof.
  intros Hmissing. unfold handler. unfold mbind at 1, emit.
  assert (Hcheck : negb (truthy (dict_get query "startDate"))
                   || negb (truthy (dict_get query "endDate")) = true).
  { destruct Hmissing as [-> | ->]; [reflexivity | apply orb_true_r]. }
  rewrite Hcheck. eexists. split; [reflexivity|].
  eexists _, _. split; reflexivity.
Qed.

Lemma handler_malformed (fuel : nat) (query : dict) (tr : list event) :
  regex_test dateRegex (to_string (dict_get query "startDate")) = false \/
  regex_test dateRegex (to_string (dict_get query "endDate")) = false ->
  exists body,
    handler w env fuel query tr
    = Some (Ok (res (int 400) body), (tr ++ [entry_event])%list) /\
    error_body body.
Proof.
  intros Hbad.
  destruct (negb (truthy (dict_get query "startDate"))
            || negb (truthy (dict_get query "endDate"))) eqn:Hcheck.
  { apply handler_missing. apply orb_prop in Hcheck.
    destruct Hcheck as [H | H]; apply negb_true_iff in H; auto. }
  unfold handler. unfold mbind at 1, emit. rewrite Hcheck.
  assert (Hfmt : negb (regex_test dateRegex (to_string (dict_get query "startDate")))
                 || negb (regex_test dateRegex (to_string (dict_get query "endDate")))
                 = true).
  { destruct Hbad as [-> | ->]; [reflexivity | apply orb_true_r]. }
  rewrite Hfmt. eexists. split; [reflexivity|].
  eexists _, _. split; reflexivity.
Qed.

Lemma handler_inverted (fuel : nat) (query : dict) (tr : list event) :
  date_gt (new_Date (dict_get query "startDate")) (new_Date (dict_get query "endDate"))
  = true ->
  exists body,
    handler w env fuel query tr
    = Some (Ok (res (int 400) body), (tr ++ [entry_event])%list) /\
    error_body body.
Proof.
  intros Hrange.
  destruct (regex_test dateRegex (to_string (dict_get query "startDate"))) eqn:H1;
    [|apply handler_malformed; auto].
  destruct (regex_test dateRegex (to_string (dict_get query "endDate"))) eqn:H2;
    [|apply handler_malformed; auto].
  destruct (negb (truthy (dict_get query "startDate"))
            || negb (truthy (dict_get query "endDate"))) eqn:Hcheck.
  { apply handler_missing. apply orb_prop in Hcheck.
    destruct Hcheck as [H | H]; apply negb_true_iff in H; auto. }
  unfold handler. unfold mbind at 1, emit. rewrite Hcheck, H1, H2, Hrange.
  cbn [negb orb]. eexists. split; [reflexivity|].
  eexists _, _. split; reflexivity.
Qed.

(** C9: a request with a missing (or empty) startDate or endDate, with
    a date that is not of the YYYY-MM-DD shape, or with two calendar
    dates of which startDate is the later one, gets a 400 whose body
    carries an error label and a message; the run logs its start and
    makes no call, whatever the upstream and the environment. *)
Theorem handler_rejects_bad_request (fuel : nat) (query : dict) (tr : list event) :
  (truthy (dict_get query "startDate") = false \/
   truthy (dict_get query "endDate") = false) \/
  (exists s e,
      dict_get query "startDate" = Str s /\ dict_get query "endDate" = Str e /\
      (~ yyyy_mm_dd s \/ ~ yyyy_mm_dd e)) \/
  (exists s e a b,
      dict_get query "startDate" = Str s /\ dict_get query "endDate" = Str e /\
      calendar_date s = Some a /\ calendar_date e = Some b /\ ymd_after a b) ->
  exists body,
    handler w env fuel query tr
    = Some (Ok (res (int 400) body), (tr ++ [entry_event])%list) /\
    error_body body.
Proof.
  intros [Hmissing | [(s & e & Hs & He & Hbad) | (s & e & a & b & Hs & He & Ha & Hb & Hafter)]].
  - apply handler_missing, Hmissing.
  - apply handler_malformed. rewrite Hs, He. cbn [to_string].
    destruct Hbad as [H | H]; [left | right];
      apply not_true_is_false; rewrite dateRegex_shape; exact H.
  - apply handler_inverted. rewrite Hs, He. cbn [new_Date].
    destruct a as [[y1 m1] d1], b as [[y2 m2] d2].
    destruct (calendar_date_parse _ _ _ _ Ha) as (_ & -> & Hm1 & Hd1).
    destruct (calendar_date_parse _ _ _ _ Hb) as (_ & -> & Hm2 & Hd2).
    cbn [date_gt]. apply Z.ltb_lt.
    pose proof (MakeDay_after _ _ _ _ _ _ Hm1 Hd1 Hm2 Hd2 Hafter).
    unfold msPerDay. lia.
Qed.

(** C7: when the first calls are answered with pages that carry a next
    marker and the following one is rejected, the handler answers with
    the failure body and nothing else: no worklog of the pages already
    fetched, no call to Jira.  The status is the rejection's
    [response.status] when that is truthy, and 500 otherwise. *)
Theorem handler_fetch_failure (fuel : nat) (query : dict) (tr : list event)
    (pages : list (list value * value)) (e : error) :
  accepted query -> configured ->
  (forall (j : nat) results metadata,
      pages !! j = Some (results, metadata) ->
      served w service_of_env (dict_get query "startDate") (dict_get query "endDate")
        j results metadata /\
      next_marker metadata = true) ->
  rejected w service_of_env (dict_get query "startDate") (dict_get query "endDate")
    (List.length pages) e ->
  (List.length pages < fuel)%nat ->
  exists status,
    handler w env fuel query tr
    = Some (Ok (res status (Obj [
              ("error", Str "Failed to retrieve worklogs");
              ("message",
                 or_else (get_opt (get_opt (response e) "data") "message")
                         (Str (message e)));
              ("details", or_else (get_opt (response e) "data") Null)
            ])),
            (tr ++ [entry_event]
                ++ calls_from (dict_get query "startDate") (dict_get query "endDate")
                     0 (S (List.length pages))
                ++ [ContextLogError [Str "Error fetching worklogs:"; Str (message e)]])%list)
    /\
    (truthy (get_opt (response e) "status") = true ->
     status = get_opt (response e) "status") /\
    (truthy (get_opt (response e) "status") = false -> status = int 500).
Proof.
  intros Hacc Hconf Hpages Hrej Hfuel.
  rewrite handler_accepted by assumption.
  unfold TempoService.getWorklogs. unfold mbind at 1.
  replace fuel with (List.length pages + S (fuel - S (List.length pages)))%nat by lia.
  rewrite (page_loop_aborts _ _ _ _ pages e) by assumption.
  unfold respond_failure, mbind, emit, ret.
  eexists. split.
  - rewrite <- !app_assoc. reflexivity.
  - split; intros H; [apply or_else_truthy | apply or_else_falsy]; exact H.
Qed.




End HandlerFacts.

(** * Further properties *)

(** ** Sums and prints of whole doubles *)

Section WholeDoubles.







Section Printing.
Context {rt : Runtime}.


End Printing.

End WholeDoubles.

(** ** More on normalisation *)

Section NormalizerMore.
Context {rt : Runtime}.

Definition nullish (v : value) : bool :=
  match v with
  | Null | Undefined => true
  | _ => false
  end.

Lemma transformWorklog_defined (worklog : value) :
  nullish worklog = false ->
  exists record, TempoService.transformWorklog worklog = Ok record.
Proof.
  destruct worklog; cbn; try discriminate; intros _; eexists; reflexivity.
Qed.

Lemma transformWorklog_nullish (worklog : value) :
  nullish worklog = true ->
  exists e, TempoService.transformWorklog worklog = Throw e /\ response e = Undefined.
Proof.
  destruct worklog; cbn; try discriminate; intros _; eexists; split; reflexivity.
Qed.

Lemma transformWorklogs_throws (worklogs : list value) :
  forallb (fun v => negb (nullish v)) worklogs = false ->
  exists e,
    TempoService.transformWorklogs worklogs = Throw e /\ response e = Undefined.
Proof.
  induction worklogs as [|worklog rest IH]; cbn [forallb]; [discriminate|].
  cbn [TempoService.transformWorklogs].
  destruct (nullish worklog) eqn:Hnull; cbn [negb andb].
  - intros _. destruct (transformWorklog_nullish worklog Hnull) as (e & -> & He).
    exists e. split; [reflexivity | exact He].
  - destruct (transformWorklog_defined worklog Hnull) as (record & ->).
    cbn [bind]. intros Hrest.
    destruct (IH Hrest) as (e & -> & He).
    exists e. split; [reflexivity | exact He].
Qed.


(** The two-decimal shape of [toFixed(2)]. *)
Lemma decimal_not_empty (n : Z) : (1 <= String.length (decimal n))%nat.
Proof.
  unfold decimal. destruct n as [|p|p]; cbn.
  - lia.
  - destruct (Pos.to_uint p); cbn; lia.
  - lia.
Qed.

Lemma length_substring (a b : nat) (s : string) :
  (a + b <= String.length s)%nat -> String.length (substring a b s) = b.
Proof.
  revert a b. induction s as [|c s IH]; intros a b H; cbn in H.
  - replace a with 0%nat by lia. replace b with 0%nat by lia. reflexivity.
  - destruct a as [|a]; cbn.
    + destruct b as [|b]; [reflexivity|]. cbn. rewrite (IH 0%nat) by lia. reflexivity.
    + apply IH. lia.
Qed.

Lemma length_append (s t : string) :
  String.length (s ++ t) = (String.length s + String.length t)%nat.
Proof. induction s as [|c s IH]; simpl; [reflexivity | rewrite IH; reflexivity]. Qed.

Lemma fixed2_digits_shape (n : Z) :
  exists whole fraction : string,
    fixed2_digits n = whole ++ "." ++ fraction /\
    (1 <= String.length whole)%nat /\ String.length fraction = 2%nat.
Proof.
  unfold fixed2_digits.
  pose proof (decimal_not_empty n) as Hlen.
  set (m := decimal n) in *.
  set (m' := if (String.length m <=? 2)%nat
             then (if (String.length m =? 1)%nat then "00" else "0") ++ m
             else m).
  assert (Hm' : (3 <= String.length m')%nat).
  { unfold m'. destruct (Nat.leb_spec (String.length m) 2) as [H | H]; [|lia].
    rewrite length_append.
    destruct (Nat.eqb_spec (String.length m) 1) as [H1 | H1]; cbn; lia. }
  eexists _, _. split; [reflexivity|].
  rewrite !length_substring by lia. lia.
Qed.

(** X2: for a whole number of seconds (of magnitude below 2^53),
    timeSpentHours is a sign, at least one character, a point and
    exactly two characters. *)
Theorem timeSpentHours_shape (props : list (string * value)) (s : Z) :
  - 2 ^ 53 < s < 2 ^ 53 ->
  lookup_prop "timeSpentSeconds" props = int s ->
  exists (record : value) (whole fraction : string),
    TempoService.transformWorklog (Obj props) = Ok record /\
    get_opt record "timeSpentHours"
    = Str ((if s <? 0 then "-" else "") ++ whole ++ "." ++ fraction) /\
    (1 <= String.length whole)%nat /\ String.length fraction = 2%nat.
Proof.
  intros Hs Hseconds.
  destruct (to_fixed2_seconds s Hs) as (n & Hfixed & _).
  destruct (fixed2_digits_shape n) as (whole & fraction & Hshape & Hwhole & Hfraction).
  exists (record_of props), whole, fraction. split; [reflexivity|].
  split; [|split; assumption].
  unfold record_of. cbn. rewrite Hseconds, Hfixed, Hshape. reflexivity.
Qed.

End NormalizerMore.

(** ** More on the page loop *)

Section FetcherMore.
Context {rt : Runtime}.
Variable w : world.
Variable this : TempoService.t.
Variables startDate endDate : value.

Local Abbreviation loop := (TempoService.page_loop w this startDate endDate).
Local Abbreviation calls := (calls_from startDate endDate).

(** Whatever the upstream answers, a run of the loop that ends has made
    the calls at consecutive offsets, at least one and one per unit of
    fuel at most, and has only added to the collection. *)
Lemma page_loop_finishes (fuel : nat) :
  forall (i : nat) acc tr r tr',
    loop fuel (50 * Z.of_nat i) acc tr = Some (r, tr') ->
    exists n : nat,
      (1 <= n <= fuel)%nat /\
      tr' = (tr ++ calls i n)%list /\
      (forall all, r = Ok all -> exists more, all = (acc ++ more)%list).
Proof.
  induction fuel as [|fuel IH]; intros i acc tr r tr' Hrun; [discriminate|].
  cbn [TempoService.page_loop] in Hrun.
  unfold mbind at 1, TempoService.client_get, mbind at 1, emit, lift in Hrun.
  fold (params_at startDate endDate i) in Hrun.
  fold (call_at startDate endDate i) in Hrun.
  destruct (tempo_get w _ _) as [data|e].
  2: { injection Hrun as <- <-. exists 1%nat. split; [lia|]. split; [reflexivity|].
       discriminate. }
  unfold mbind at 1 in Hrun.
  destruct (TempoService.destructure_page data) as [[results metadata]|e].
  2: { injection Hrun as <- <-. exists 1%nat. split; [lia|]. split; [reflexivity|].
       discriminate. }
  fold (next_marker metadata) in Hrun. rewrite offset_succ in Hrun.
  unfold mbind at 1 in Hrun.
  assert (Hstep : forall acc',
             (exists more, acc' = (acc ++ more)%list) ->
             (if next_marker metadata
              then loop fuel (50 * Z.of_nat (S i)) acc'
              else ret acc') (tr ++ [call_at startDate endDate i])%list = Some (r, tr') ->
             exists n : nat,
               (1 <= n <= S fuel)%nat /\
               tr' = (tr ++ calls i n)%list /\
               (forall all, r = Ok all -> exists more, all = (acc ++ more)%list)).
  { intros acc' [more ->] H. destruct (next_marker metadata).
    - destruct (IH _ _ _ _ _ H) as (n & Hn & -> & Hall).
      exists (S n). split; [lia|]. split.
      + rewrite calls_from_cons, <- app_assoc. reflexivity.
      + intros all Hr. destruct (Hall all Hr) as [more' ->].
        exists (more ++ more')%list. rewrite app_assoc. reflexivity.
    - injection H as <- <-. exists 1%nat. split; [lia|]. split; [reflexivity|].
      intros all [= <-]. exists more. reflexivity. }
  destruct (truthy results && TempoService.length_positive results).
  - unfold mbind at 1, lift in Hrun.
    destruct (iterate spread_complaint results) as [pushed|e].
    + apply (Hstep (acc ++ pushed)%list); [eexists; reflexivity | exact Hrun].
    + injection Hrun as <- <-. exists 1%nat. split; [lia|]. split; [reflexivity|].
      discriminate.
  - apply (Hstep acc); [exists []; rewrite app_nil_r; reflexivity | exact Hrun].
Qed.

(** An upstream that always announces a next page keeps the loop going:
    no amount of fuel is enough. *)
Lemma page_loop_unbounded (fuel : nat) :
  (forall i : nat, exists results metadata,
      served w this startDate endDate i results metadata /\
      next_marker metadata = true) ->
  forall (i : nat) acc tr, loop fuel (50 * Z.of_nat i) acc tr = None.
Proof.
  intros Hnext. induction fuel as [|fuel IH]; intros i acc tr; [reflexivity|].
  destruct (Hnext i) as (results & metadata & Hserved & Hmarker).
  rewrite (page_loop_served _ _ _ _ _ _ _ _ _ _ Hserved), Hmarker. apply IH.
Qed.

End FetcherMore.

(** ** More on enrichment *)

Section EnricherMore.
Context {rt : Runtime}.
Variable w : world.
Variable cfg : jira_config.








(** *** The lookup map *)

Definition entry_of (issue : value) : value :=
  entry (get_opt issue "key") (get_opt (get_opt issue "fields") "summary").

Definition has_id (name : string) (issue : value) : bool :=
  String.eqb (to_string (get_opt issue "id")) name.

Lemma get_Ok (v : value) (name : string) (x : value) :
  get v name = Ok x -> x = get_opt v name /\ nullish v = false.
Proof.
  destruct v; cbn; intros H; try discriminate; injection H as <-; split; reflexivity.
Qed.

Lemma get_defined (v : value) (name : string) :
  nullish v = false -> get v name = Ok (get_opt v name).
Proof. destruct v; cbn; intros H; try discriminate; reflexivity. Qed.

Lemma find_snoc {A} (f : A -> bool) (l : list A) (x : A) :
  find f (l ++ [x]) = match find f l with
                      | Some y => Some y
                      | None => if f x then Some x else None
                      end.
Proof.
  induction l as [|y l IH]; cbn; [reflexivity|].
  destruct (f y); [reflexivity | exact IH].
Qed.

(** The last issue of the response with a given identifier. *)
Definition last_with (name : string) (issues : list value) : option value :=
  find (has_id name) (rev issues).

(** What the two parts of the dictionary hold once the issues are
    stored: the own properties, under any name but [__proto__], and the
    prototype. *)
Lemma build_issue_map_parts (issues : list value) :
  forall (issueMap m : dictionary),
    TempoService.build_issue_map issues issueMap = Ok m ->
    (forall name : string,
        name <> "__proto__" ->
        own m !! name = match last_with name issues with
                        | Some issue => Some (entry_of issue)
                        | None => own issueMap !! name
                        end) /\
    proto m = match last_with "__proto__" issues with
              | Some issue =>
                  Some (get_opt issue "key", get_opt (get_opt issue "fields") "summary")
              | None => proto issueMap
              end.
Proof.
  unfold last_with.
  induction issues as [|issue issues IH]; intros issueMap m Hbuild.
  - injection Hbuild as <-. split; reflexivity.
  - cbn [TempoService.build_issue_map] in Hbuild.
    destruct (get issue "id") as [id|] eqn:Eid; [|discriminate].
    destruct (get issue "key") as [k|] eqn:Ekey; [|discriminate].
    destruct (get issue "fields") as [fields|] eqn:Efields; [|discriminate].
    cbn [bind] in Hbuild.
    destruct (get fields "summary") as [summary|] eqn:Esummary; [|discriminate].
    cbn [bind] in Hbuild.
    apply get_Ok in Eid, Ekey, Efields, Esummary.
    destruct Eid as [-> _], Ekey as [-> _], Efields as [-> _], Esummary as [-> _].
    destruct (IH _ _ Hbuild) as [Hown Hproto]. cbn [rev]. split.
    + intros name Hname. rewrite (Hown name Hname), find_snoc.
      destruct (find (has_id name) (rev issues)); [reflexivity|].
      unfold has_id at 1, store.
      destruct (String.eqb_spec (to_string (get_opt issue "id")) name) as [Heq | Hne].
      * rewrite Heq. destruct (String.eqb_spec name "__proto__") as [|_]; [contradiction|].
        cbn [own]. rewrite lookup_insert_eq. reflexivity.
      * destruct (String.eqb (to_string (get_opt issue "id")) "__proto__");
          [reflexivity|].
        cbn [own]. rewrite lookup_insert_ne by exact Hne. reflexivity.
    + rewrite Hproto, find_snoc.
      destruct (find (has_id "__proto__") (rev issues)); [reflexivity|].
      unfold has_id at 1, store.
      destruct (String.eqb (to_string (get_opt issue "id")) "__proto__"); reflexivity.
Qed.

(** X4: what [issueMap[name]] is once the response of Jira has been
    read without a throw.  Under the identifier (as a string) of an
    issue of the response it is the key and the [fields.summary] of the
    last issue with that identifier: a later duplicate overwrites an
    earlier one, and this holds for [__proto__] too, where the store
    replaces the prototype.  Under a name no issue carries it is what
    the object inherits: a built-in under [__proto__] and under the
    member names of [Object.prototype], the key and the summary of the
    issue stored under [__proto__], if there is one, under [key] and
    [summary], and undefined under any other name. *)
Theorem issue_map_last_wins (data : value) (m : dictionary) :
  TempoService.issue_map_of data = Ok m ->
  exists issues : list value,
    iterate "response.data.issues is not iterable" (get_opt data "issues") = Ok issues /\
    forall name : string,
      read m name
      = match last_with name issues with
        | Some issue => Stored (entry_of issue)
        | None =>
            if String.eqb name "__proto__" then Builtin
            else match last_with "__proto__" issues with
                 | Some issue =>
                     if String.eqb name "key" then Stored (get_opt issue "key")
                     else if String.eqb name "summary"
                          then Stored (get_opt (get_opt issue "fields") "summary")
                          else inherited name
                 | None => inherited name
                 end
        end.
Proof.
  unfold TempoService.issue_map_of. intros Hmap.
  destruct (get data "issues") as [v|] eqn:Eissues; [|discriminate].
  apply get_Ok in Eissues. destruct Eissues as [-> _].
  cbn [bind] in Hmap.
  destruct (iterate _ _) as [issues|]; [|discriminate].
  cbn [bind] in Hmap.
  exists issues. split; [reflexivity|]. intros name.
  destruct (build_issue_map_parts _ _ _ Hmap) as [Hown Hproto].
  unfold read. rewrite Hproto.
  destruct (String.eqb_spec name "__proto__") as [-> | Hname].
  - destruct (last_with "__proto__" issues); reflexivity.
  - rewrite (Hown name Hname).
    destruct (last_with name issues); [reflexivity|].
    cbn [empty_dictionary own proto]. rewrite lookup_empty.
    destruct (last_with "__proto__" issues); reflexivity.
Qed.



End EnricherMore.

(** ** The calls of [getWorklogs] *)

Section CallsFacts.
Context {rt : Runtime}.
Variable w : world.

(** What a lookup leaves in the trace: nothing, the search, or the
    search and the error it ended with. *)
Definition jira_events (extra : list event) : Prop :=
  extra = [] \/
  exists q : jira_search,
    fields q = ["key"; "summary"] /\ 1 <= maxResults q /\
    (extra = [JiraPost "/rest/api/3/search/jql" q] \/
     exists e, extra = [JiraPost "/rest/api/3/search/jql" q; failure_event e]).

Lemma enrich_events (cfg : jira_config) (worklogs : list value) (tr : list event) :
  exists (r : result (list value)) (extra : list event),
    TempoService.enrichWithIssueKeys w cfg worklogs tr = Some (r, (tr ++ extra)%list) /\
    jira_events extra.
Proof.
  unfold TempoService.enrichWithIssueKeys.
  unfold mbind at 1, lift at 1.
  destruct (TempoService.issue_ids worklogs) as [ids|e].
  2: { exists (Throw e), []. rewrite app_nil_r. split; [reflexivity | left; reflexivity]. }
  set (issueIds := TempoService.set_elements (List.filter truthy ids)).
  destruct (Nat.eqb_spec (List.length issueIds) 0) as [Hzero | Hsome].
  { exists (Ok worklogs), []. rewrite app_nil_r. split; [reflexivity | left; reflexivity]. }
  set (q := {| jql := _; fields := _; maxResults := _ |}).
  assert (Hq : fields q = ["key"; "summary"] /\ 1 <= maxResults q).
  { split; [reflexivity|]. cbn. lia. }
  unfold mbind at 1, attempt, mbind at 1, TempoService.jiraClient_post,
    mbind at 1, emit, lift.
  destruct (jira_post w cfg q) as [data|e].
  - destruct (TempoService.issue_map_of data) as [issueMap|e].
    + destruct (TempoService.enrich_loop issueMap worklogs) as [[u|e] worklogs'].
      * exists (Ok worklogs'), [JiraPost "/rest/api/3/search/jql" q].
        split; [reflexivity|]. right. exists q. destruct Hq. eauto.
      * exists (Ok worklogs'), [JiraPost "/rest/api/3/search/jql" q; failure_event e].
        split; [cbn; rewrite <- app_assoc; reflexivity|].
        right. exists q. destruct Hq. eauto.
    + exists (Ok worklogs), [JiraPost "/rest/api/3/search/jql" q; failure_event e].
      split; [cbn; rewrite <- app_assoc; reflexivity|].
      right. exists q. destruct Hq. eauto.
  - exists (Ok worklogs), [JiraPost "/rest/api/3/search/jql" q; failure_event e].
    split; [cbn; rewrite <- app_assoc; reflexivity|].
    right. exists q. destruct Hq. eauto.
Qed.

(** X5: whatever the two collaborators answer, a call of [getWorklogs]
    that ends has called Tempo at the offsets 0, 50, ..., 50 (n - 1) in
    this order, each time with limit 50 and the dates it was given, for
    some n of at least one; after the last of these it has searched
    Jira at most once, for the fields key and summary and at least one
    result, and logged at most the failure of that search; it has left
    no other event, and none for Jira when the service has no Jira
    configuration. *)
Theorem getWorklogs_events (this : TempoService.t) (fuel : nat) (startDate endDate : value)
    (tr : list event) (r : result (list value)) (tr' : list event) :
  TempoService.getWorklogs w this fuel startDate endDate tr = Some (r, tr') ->
  exists (n : nat) (extra : list event),
    (1 <= n <= fuel)%nat /\
    tr' = (tr ++ calls_from startDate endDate 0 n ++ extra)%list /\
    jira_events extra /\
    (TempoService.this_jiraConfig this = None -> extra = []).
Proof.
  unfold TempoService.getWorklogs. intros Hrun.
  unfold mbind at 1 in Hrun.
  destruct (TempoService.page_loop w this startDate endDate fuel 0 [] tr)
    as [[r1 tr1]|] eqn:Hloop; [|discriminate].
  change 0 with (50 * Z.of_nat 0) in Hloop.
  destruct (page_loop_finishes _ _ _ _ _ _ _ _ _ _ Hloop) as (n & Hn & -> & _).
  exists n.
  destruct r1 as [allWorklogs|e].
  2: { injection Hrun as <- <-. exists []. rewrite app_nil_r.
       split; [exact Hn|]. split; [reflexivity|]. split; [left|]; reflexivity. }
  unfold mbind at 1 in Hrun.
  assert (Hend : forall (worklogs : list value) (extra : list event),
             jira_events extra ->
             (TempoService.this_jiraConfig this = None -> extra = []) ->
             lift (TempoService.transformWorklogs worklogs)
               ((tr ++ calls_from startDate endDate 0 n) ++ extra)%list = Some (r, tr') ->
             exists extra : list event,
               (1 <= n <= fuel)%nat /\
               tr' = (tr ++ calls_from startDate endDate 0 n ++ extra)%list /\
               jira_events extra /\
               (TempoService.this_jiraConfig this = None -> extra = [])).
  { intros worklogs extra Hextra Hnone H. injection H as <- <-.
    exists extra. rewrite app_assoc. auto. }
  destruct (TempoService.this_jiraConfig this) as [cfg|].
  - destruct (0 <? List.length allWorklogs)%nat.
    + destruct (enrich_events cfg allWorklogs (tr ++ calls_from startDate endDate 0 n)%list)
        as (r2 & extra & Henrich & Hextra).
      rewrite Henrich in Hrun. destruct r2 as [worklogs|e].
      * apply (Hend worklogs extra Hextra); [discriminate | exact Hrun].
      * injection Hrun as <- <-. exists extra. rewrite app_assoc.
        split; [exact Hn|]. split; [reflexivity|]. split; [exact Hextra | discriminate].
    + apply (Hend allWorklogs []); [left; reflexivity | reflexivity |].
      rewrite app_nil_r. exact Hrun.
  - apply (Hend allWorklogs []); [left; reflexivity | reflexivity |].
    rewrite app_nil_r. exact Hrun.
Qed.

End CallsFacts.

(** ** Keys from Jira in the records *)

Section KeysFacts.
Context {rt : Runtime}.
Variable w : world.








End KeysFacts.

(** ** More on the handler *)

Section HandlerMore.
Context {rt : Runtime}.
Variable w : world.
Variable env : Handler.dict.
Import Handler.

Local Abbreviation pipeline_outcome fuel query tr :=
  (match TempoService.getWorklogs w (service_of_env env) fuel
           (dict_get query "startDate") (dict_get query "endDate")
           (tr ++ [entry_event])%list with
   | Some (Ok worklogs, tr') =>
       Some (Ok (worklogs_response (dict_get query "startDate")
                   (dict_get query "endDate") (dict_get query "format") worklogs), tr')
   | Some (Throw e, tr') => respond_failure e tr'
   | None => None
   end).

(** X8: a request that passes validation while [TEMPO_API_TOKEN] is
    missing or empty gets a 500 'Configuration error'; the run logs its
    start and calls neither Tempo nor Jira. *)
Theorem handler_configuration_error (fuel : nat) (query : dict) (tr : list event) :
  accepted query ->
  truthy (dict_get env "TEMPO_API_TOKEN") = false ->
  handler w env fuel query tr
  = Some (Ok (res (int 500) (Obj [
            ("error", Str "Configuration error");
            ("message", Str "TEMPO_API_TOKEN is not configured")
          ])),
          (tr ++ [entry_event])%list).
Proof.
  intros (Hstart & Hend & Hfmt1 & Hfmt2 & Hrange) Htoken.
  unfold handler. unfold mbind at 1, emit.
  rewrite Hstart, Hend, Hfmt1, Hfmt2, Hrange, Htoken. reflexivity.
Qed.

(** *** Which requests reach the pipeline *)

(** A string of the YYYY-MM-DD shape of which [new Date] makes an
    invalid date: its month is outside 01..12 or its day outside
    01..31, and the legacy reading as month, day, year does not apply
    either, the year part being outside 0001..0012 or the month part
    outside 01..31. *)
Definition no_such_day (s : string) : Prop :=
  let '(y, m, d) := ymd_of s in
  ~ (1 <= m <= 12 /\ 1 <= d <= 31) /\ ~ (1 <= y <= 12 /\ 1 <= m <= 31).

Lemma shaped_truthy (s : string) : yyyy_mm_dd s -> truthy (Str s) = true.
Proof. intros [Hlen _]. destruct s; [discriminate | reflexivity]. Qed.

Lemma no_such_day_parse (s : string) : no_such_day s -> date_parse s = None.
Proof.
  unfold no_such_day, ymd_of, date_parse, legacy_date. intros [Hiso Hlegacy].
  destruct (regex_test dateRegex s); [|reflexivity].
  destruct ((1 <=? _) && (_ <=? 12) && (1 <=? _) && (_ <=? 31)) eqn:E.
  { exfalso. apply Hiso.
    repeat (apply andb_prop in E; destruct E as [E ?]).
    rewrite ?Z.leb_le in *. lia. }
  destruct ((1 <=? _) && (_ <=? 31)) eqn:E1; [|reflexivity].
  destruct ((_ <=? 12) && (1 <=? _) && (_ <=? 31)) eqn:E2; [|reflexivity].
  exfalso. apply Hlegacy.
  repeat (apply andb_prop in E1; destruct E1 as [E1 ?]).
  repeat (apply andb_prop in E2; destruct E2 as [E2 ?]).
  rewrite ?Z.leb_le in *. lia.
Qed.

Lemma date_gt_invalid_r (a : option Z) : date_gt a None = false.
Proof. destruct a; reflexivity. Qed.

Lemma ymd_trichotomy (a b : Z * Z * Z) : ~ ymd_after a b -> a = b \/ ymd_after b a.
Proof.
  destruct a as [[y1 m1] d1], b as [[y2 m2] d2]. unfold ymd_after. intros Hnot.
  destruct (Z.lt_trichotomy y1 y2) as [H | [-> | H]]; [right; lia | | exfalso; lia].
  destruct (Z.lt_trichotomy m1 m2) as [H | [-> | H]]; [right; lia | | exfalso; lia].
  destruct (Z.lt_trichotomy d1 d2) as [H | [-> | H]]; [right; lia | | exfalso; lia].
  left. reflexivity.
Qed.

Lemma ordered_not_gt (s e : string) (a b : Z * Z * Z) :
  calendar_date s = Some a -> calendar_date e = Some b -> ~ ymd_after a b ->
  date_gt (date_parse s) (date_parse e) = false.
Proof.
  intros Ha Hb Hnot.
  destruct a as [[y1 m1] d1], b as [[y2 m2] d2].
  destruct (calendar_date_parse _ _ _ _ Ha) as (_ & -> & Hm1 & Hd1).
  destruct (calendar_date_parse _ _ _ _ Hb) as (_ & -> & Hm2 & Hd2).
  cbn [date_gt]. apply Z.ltb_ge.
  destruct (ymd_trichotomy _ _ Hnot) as [Heq | Hafter].
  - injection Heq as -> -> ->. lia.
  - pose proof (MakeDay_after _ _ _ _ _ _ Hm2 Hd2 Hm1 Hd1 Hafter).
    unfold msPerDay. lia.
Qed.

(** X9: which requests reach the pipeline.  With [TEMPO_API_TOKEN]
    set, a request whose startDate and endDate have the YYYY-MM-DD
    shape is answered with the outcome of [getWorklogs] on these two
    strings (the 200 response built from its records, or the failure
    response built from its error) as soon as the two name calendar
    dates with startDate not after endDate, the same day included, and
    also when one of them names no day at all (month outside 01..12 or
    day outside 01..31) and is not taken for a month, a day and a year
    either (which takes a year part in 0001..0012 and a month part in
    01..31): such a string makes an invalid date, which the range check
    lets through. *)
Theorem handler_runs_pipeline (fuel : nat) (query : dict) (tr : list event)
    (s e : string) :
  dict_get query "startDate" = Str s ->
  dict_get query "endDate" = Str e ->
  yyyy_mm_dd s -> yyyy_mm_dd e ->
  (exists a b, calendar_date s = Some a /\ calendar_date e = Some b /\ ~ ymd_after a b) \/
  no_such_day s \/ no_such_day e ->
  configured env ->
  handler w env fuel query tr = pipeline_outcome fuel query tr.
Proof.
  intros Hs He Hshape_s Hshape_e Hdates Hconf.
  apply handler_accepted; [|exact Hconf].
  unfold accepted. rewrite Hs, He. cbn [to_string new_Date].
  split; [apply shaped_truthy, Hshape_s|].
  split; [apply shaped_truthy, Hshape_e|].
  split; [apply dateRegex_shape, Hshape_s|].
  split; [apply dateRegex_shape, Hshape_e|].
  destruct Hdates as [(a & b & Ha & Hb & Hnot) | [Hno | Hno]].
  - exact (ordered_not_gt s e a b Ha Hb Hnot).
  - rewrite (no_such_day_parse s Hno). reflexivity.
  - rewrite (no_such_day_parse e Hno). apply date_gt_invalid_r.
Qed.

(** X10: the three rejections, in the order of the checks.  A missing
    or empty date is answered 'Missing required parameters'; two
    non-empty dates of which one has not the YYYY-MM-DD shape are
    answered 'Invalid date format', with the two values echoed under
    [provided]; two calendar dates of which startDate is the later one
    are answered 'Invalid date range'. *)
Theorem handler_rejection_labels (fuel : nat) (query : dict) (tr : list event) :
  (truthy (dict_get query "startDate") = false \/
   truthy (dict_get query "endDate") = false ->
   exists body,
     handler w env fuel query tr
     = Some (Ok (res (int 400) body), (tr ++ [entry_event])%list) /\
     get_opt body "error" = Str "Missing required parameters") /\
  (forall s e,
      dict_get query "startDate" = Str s -> dict_get query "endDate" = Str e ->
      s <> "" -> e <> "" ->
      ~ yyyy_mm_dd s \/ ~ yyyy_mm_dd e ->
      exists body,
        handler w env fuel query tr
        = Some (Ok (res (int 400) body), (tr ++ [entry_event])%list) /\
        get_opt body "error" = Str "Invalid date format" /\
        get_opt body "provided" = Obj [("startDate", Str s); ("endDate", Str e)]) /\
  (forall s e a b,
      dict_get query "startDate" = Str s -> dict_get query "endDate" = Str e ->
      calendar_date s = Some a -> calendar_date e = Some b -> ymd_after a b ->
      exists body,
        handler w env fuel query tr
        = Some (Ok (res (int 400) body), (tr ++ [entry_event])%list) /\
        get_opt body "error" = Str "Invalid date range").
Proof.
  split; [|split].
  - intros Hmissing. unfold handler. unfold mbind at 1, emit.
    assert (Hcheck : negb (truthy (dict_get query "startDate"))
                     || negb (truthy (dict_get query "endDate")) = true).
    { destruct Hmissing as [-> | ->]; [reflexivity | apply orb_true_r]. }
    rewrite Hcheck. eexists. split; reflexivity.
  - intros s e Hs He Hns Hne Hbad.
    unfold handler. unfold mbind at 1, emit. rewrite Hs, He.
    assert (Htruthy : forall x : string, x <> "" -> truthy (Str x) = true).
    { intros x Hx. destruct x; [contradiction | reflexivity]. }
    rewrite (Htruthy s Hns), (Htruthy e Hne). cbn [negb orb to_string].
    assert (Hfmt : negb (regex_test dateRegex s) || negb (regex_test dateRegex e) = true).
    { destruct Hbad as [H | H]; rewrite <- dateRegex_shape in H;
        apply not_true_is_false in H; rewrite H; [reflexivity | apply orb_true_r]. }
    rewrite Hfmt. eexists. split; [reflexivity|]. split; reflexivity.
  - intros s e a b Hs He Ha Hb Hafter.
    unfold handler. unfold mbind at 1, emit. rewrite Hs, He.
    destruct a as [[y1 m1] d1], b as [[y2 m2] d2].
    destruct (calendar_date_parse _ _ _ _ Ha) as (Hshape_s & Hparse_s & Hm1 & Hd1).
    destruct (calendar_date_parse _ _ _ _ Hb) as (Hshape_e & Hparse_e & Hm2 & Hd2).
    rewrite (shaped_truthy s), (shaped_truthy e) by (apply dateRegex_shape; assumption).
    cbn [negb orb to_string new_Date]. rewrite Hshape_s, Hshape_e, Hparse_s, Hparse_e.
    cbn [negb orb date_gt].
    assert (Hgt : (msPerDay * MakeDay y2 m2 d2 <? msPerDay * MakeDay y1 m1 d1) = true).
    { apply Z.ltb_lt.
      pose proof (MakeDay_after _ _ _ _ _ _ Hm1 Hd1 Hm2 Hd2 Hafter).
      unfold msPerDay. lia. }
    rewrite Hgt. eexists. split; reflexivity.
Qed.

(** X11: the handler never throws.  Whatever the request, the
    environment and the two collaborators do, a run that ends leaves a
    response with a status, the JSON content type and a body, after the
    entry log. *)
Theorem handler_always_responds (fuel : nat) (query : dict) (tr : list event)
    (r : result value) (tr' : list event) :
  handler w env fuel query tr = Some (r, tr') ->
  exists status body,
    r = Ok (Obj [("status", status);
                 ("headers", Obj [("Content-Type", Str "application/json")]);
                 ("body", body)]).
Proof.
  unfold handler. unfold mbind at 1, emit. intros Hrun.
  destruct (negb (truthy (dict_get query "startDate"))
            || negb (truthy (dict_get query "endDate"))).
  { injection Hrun as <- <-. eexists _, _. reflexivity. }
  destruct (negb (regex_test dateRegex (to_string (dict_get query "startDate")))
            || negb (regex_test dateRegex (to_string (dict_get query "endDate")))).
  { injection Hrun as <- <-. eexists _, _. reflexivity. }
  destruct (date_gt _ _).
  { injection Hrun as <- <-. eexists _, _. reflexivity. }
  destruct (negb (truthy (dict_get env "TEMPO_API_TOKEN"))).
  { injection Hrun as <- <-. eexists _, _. reflexivity. }
  unfold mbind at 1, attempt, respond_worklogs, mbind at 1 in Hrun.
  destruct (TempoService.getWorklogs _ _ _ _ _ _) as [[[worklogs|e] tr1]|];
    [| |discriminate].
  - injection Hrun as <- <-.
    unfold worklogs_response. destruct (strict_equals_string _ _); eexists _, _; reflexivity.
  - unfold respond_failure, mbind, emit, ret in Hrun. injection Hrun as <- <-.
    eexists _, _. reflexivity.
Qed.

(** X12: an upstream that announces a next page on every page keeps
    the request going without end: the loop has no cap on the number of
    pages, so the handler gives no response, however many iterations it
    is allowed. *)
Theorem handler_never_completes (query : dict) :
  accepted query -> configured env ->
  (forall i : nat, exists results metadata,
      served w (service_of_env env) (dict_get query "startDate") (dict_get query "endDate")
        i results metadata /\
      next_marker metadata = true) ->
  forall (fuel : nat) (tr : list event), handler w env fuel query tr = None.
Proof.
  intros Hacc Hconf Hnext fuel tr.
  rewrite handler_accepted by assumption.
  unfold TempoService.getWorklogs. unfold mbind at 1.
  change 0 with (50 * Z.of_nat 0).
  rewrite (page_loop_unbounded w _ _ _ fuel Hnext). reflexivity.
Qed.

End HandlerMore.

(** ** The summary of the response *)

Section SummaryFacts.
Context {rt : Runtime}.
Import Handler.







(** *** A worklog without its seconds *)

Definition number_or_missing (v : value) : bool :=
  match v with
  | Num _ | Undefined => true
  | _ => false
  end.

Lemma SFadd_nan_r (x : spec_float) : SFadd prec emax x S754_nan = S754_nan.
Proof. destruct x; reflexivity. Qed.

Lemma sum_stays_nan (records : list value) :
  Forall (fun record => number_or_missing (get_opt record "timeSpentSeconds") = true)
         records ->
  fold_left (fun sum wl => add sum (get_opt wl "timeSpentSeconds")) records (Num S754_nan)
  = Num S754_nan.
Proof.
  induction 1 as [|record records Hrecord _ IH]; [reflexivity|].
  cbn [fold_left].
  destruct (get_opt record "timeSpentSeconds"); try discriminate; exact IH.
Qed.

Lemma sum_becomes_nan (records : list value) :
  Forall (fun record => number_or_missing (get_opt record "timeSpentSeconds") = true)
         records ->
  Exists (fun record => get_opt record "timeSpentSeconds" = Undefined) records ->
  forall x : spec_float,
    fold_left (fun sum wl => add sum (get_opt wl "timeSpentSeconds")) records (Num x)
    = Num S754_nan.
Proof.
  induction 1 as [|record records Hrecord Hrest IH]; intros Hmissing x.
  - inversion Hmissing.
  - cbn [fold_left].
    destruct (get_opt record "timeSpentSeconds") eqn:Hseconds; try discriminate.
    + unfold add. cbn [to_primitive to_number]. rewrite SFadd_nan_r.
      apply sum_stays_nan, Hrest.
    + unfold add. cbn [to_primitive to_number]. apply IH.
      inversion Hmissing as [? ? Hhere | ? ? Hthere]; [congruence | exact Hthere].
Qed.

(** X14: one record without [timeSpentSeconds] spoils the totals.  When
    every record has a number there or nothing, and at least one has
    nothing, totalSeconds is NaN and totalHours is parsed from the
    string 'NaN', whatever the other records hold; totalWorklogs still
    counts every record. *)
Theorem worklogs_response_missing_seconds (startDate endDate format : value)
    (records : list value) :
  Forall (fun record => number_or_missing (get_opt record "timeSpentSeconds") = true)
         records ->
  Exists (fun record => get_opt record "timeSpentSeconds" = Undefined) records ->
  strict_equals_string format "flat" = false ->
  worklogs_response startDate endDate format records
  = res (int 200) (Obj [
      ("success", Bool true);
      ("query", Obj [("startDate", startDate); ("endDate", endDate)]);
      ("summary", Obj [
         ("totalWorklogs", int (Z.of_nat (List.length records)));
         ("totalHours", Num (parse_float "NaN"));
         ("totalSeconds", Num S754_nan)
       ]);
      ("worklogs", Arr records)
    ]).
Proof.
  intros Hall Hmissing Hformat.
  unfold worklogs_response. rewrite Hformat.
  change (int 0) with (Num (num_of_Z 0)).
  rewrite (sum_becomes_nan _ Hall Hmissing). reflexivity.
Qed.

End SummaryFacts.

(** ** A range without worklogs *)

Section EmptyRange.
Context {rt : Runtime}.
Variable w : world.
Variable env : Handler.dict.
Import Handler.

(** A first page that brings nothing and announces nothing: its
    [results] is falsy (absent, say) or the empty array, and it has no
    next marker. *)
Definition nothing_found (query : dict) : Prop :=
  exists data : value,
    tempo_get w (TempoService.this_apiToken (service_of_env env))
      (params_at (dict_get query "startDate") (dict_get query "endDate") 0) = Ok data /\
    nullish data = false /\
    (truthy (get_opt data "results") = false \/ get_opt data "results" = Arr []) /\
    next_marker (get_opt data "metadata") = false.

(** X15: a range without worklogs.  When the first page brings no
    result and no next marker, the request succeeds after that one call
    to Tempo, without any call to Jira even when Jira is configured:
    the flat response is the empty array, the default one has no
    worklogs, zero totalWorklogs and totalSeconds, and totalHours
    parsed from '0.00'. *)
Theorem handler_nothing_found (fuel : nat) (query : dict) (tr : list event) :
  accepted query -> configured env ->
  nothing_found query ->
  (0 < fuel)%nat ->
  handler w env fuel query tr
  = Some (Ok (if strict_equals_string (dict_get query "format") "flat"
              then res (int 200) (Arr [])
              else res (int 200) (Obj [
                     ("success", Bool true);
                     ("query", Obj [("startDate", dict_get query "startDate");
                                    ("endDate", dict_get query "endDate")]);
                     ("summary", Obj [
                        ("totalWorklogs", int 0);
                        ("totalHours", Num (parse_float "0.00"));
                        ("totalSeconds", int 0)
                      ]);
                     ("worklogs", Arr [])
                   ])),
          (tr ++ [entry_event;
                  call_at (dict_get query "startDate") (dict_get query "endDate") 0])%list).
Proof.
  intros Hacc Hconf (data & Hcall & Hdata & Hresults & Hstop) Hfuel.
  rewrite handler_accepted by assumption.
  destruct fuel as [|fuel]; [lia|].
  unfold TempoService.getWorklogs. unfold mbind at 1.
  cbn [TempoService.page_loop].
  unfold mbind at 1, TempoService.client_get, mbind at 1, emit, lift.
  change {| from := dict_get query "startDate"; to := dict_get query "endDate";
            offset := 0; limit := 50 |}
    with (params_at (dict_get query "startDate") (dict_get query "endDate") 0).
  rewrite Hcall.
  assert (Hpage : TempoService.destructure_page data
                  = Ok (get_opt data "results", get_opt data "metadata")).
  { destruct data; try reflexivity; discriminate. }
  unfold mbind at 1. rewrite Hpage.
  fold (next_marker (get_opt data "metadata")). rewrite Hstop.
  assert (Hskip : truthy (get_opt data "results")
                  && TempoService.length_positive (get_opt data "results") = false).
  { destruct Hresults as [-> | ->]; reflexivity. }
  rewrite Hskip. unfold mbind at 1, ret at 1, ret at 1.
  unfold mbind at 1.
  assert (Hjira : forall tr1,
             (match TempoService.this_jiraConfig (service_of_env env) with
              | Some cfg =>
                  if (0 <? @List.length value [])%nat
                  then TempoService.enrichWithIssueKeys w cfg []
                  else ret []
              | None => ret []
              end) tr1 = Some (Ok [], tr1)).
  { intros tr1. destruct (TempoService.this_jiraConfig _); reflexivity. }
  rewrite Hjira. unfold lift. cbn [TempoService.transformWorklogs].
  unfold worklogs_response, call_at. rewrite <- app_assoc.
  destruct (strict_equals_string _ _); reflexivity.
Qed.

End EmptyRange.

(** ** A page with a hole *)

Section NullRecord.
Context {rt : Runtime}.
Variable w : world.
Variable env : Handler.dict.
Import Handler.

Lemma issue_ids_throws (worklogs : list value) :
  forallb (fun v => negb (nullish v)) worklogs = false ->
  exists e, TempoService.issue_ids worklogs = Throw e /\ response e = Undefined.
Proof.
  induction worklogs as [|worklog rest IH]; cbn [forallb]; [discriminate|].
  cbn [TempoService.issue_ids].
  destruct (nullish worklog) eqn:Hnull; cbn [negb andb].
  - intros _. destruct worklog; try discriminate; cbn; eexists; split; reflexivity.
  - rewrite (get_defined worklog "issue" Hnull). cbn [bind]. intros Hrest.
    destruct (IH Hrest) as (e & -> & He).
    exists e. split; [reflexivity | exact He].
Qed.

(** X16: a hole in a page fails the request.  When the pages are
    served and one of their results is [null] or [undefined], the
    handler answers 500 'Failed to retrieve worklogs' with the message
    of the type error and null details, after the calls to Tempo and
    without any call to Jira, configured or not; no record goes out. *)
Theorem handler_null_record (fuel : nat) (query : dict) (tr : list event)
    (pages : list (list value * value)) (last_results : list value)
    (last_metadata : value) :
  accepted query -> configured env ->
  (forall (j : nat) results metadata,
      pages !! j = Some (results, metadata) ->
      served w (service_of_env env) (dict_get query "startDate")
        (dict_get query "endDate") j results metadata /\
      next_marker metadata = true) ->
  served w (service_of_env env) (dict_get query "startDate") (dict_get query "endDate")
    (List.length pages) last_results last_metadata ->
  next_marker last_metadata = false ->
  (List.length pages < fuel)%nat ->
  forallb (fun v => negb (nullish v)) (concat (map fst pages) ++ last_results) = false ->
  exists text : string,
    handler w env fuel query tr
    = Some (Ok (res (int 500) (Obj [
              ("error", Str "Failed to retrieve worklogs");
              ("message", Str text);
              ("details", Null)
            ])),
            (tr ++ [entry_event]
                ++ calls_from (dict_get query "startDate") (dict_get query "endDate")
                     0 (S (List.length pages))
                ++ [ContextLogError [Str "Error fetching worklogs:"; Str text]])%list).
Proof.
  intros Hacc Hconf Hpages Hlast Hstop Hfuel Hhole.
  rewrite handler_accepted by assumption.
  unfold TempoService.getWorklogs. unfold mbind at 1.
  replace fuel with (List.length pages + S (fuel - S (List.length pages)))%nat by lia.
  rewrite (page_loop_complete _ _ _ _ pages last_results last_metadata) by assumption.
  set (all := (concat (map fst pages) ++ last_results)%list) in *.
  set (tr1 := ((tr ++ [entry_event]) ++ _)%list).
  assert (Hthrow : exists e,
             response e = Undefined /\
             (allWorklogs <-
                match TempoService.this_jiraConfig (service_of_env env) with
                | Some cfg =>
                    if (0 <? List.length all)%nat
                    then TempoService.enrichWithIssueKeys w cfg all
                    else ret all
                | None => ret all
                end ;;
              lift (TempoService.transformWorklogs allWorklogs))%eff tr1
             = Some (Throw e, tr1)).
  { destruct (TempoService.this_jiraConfig (service_of_env env)) as [cfg|].
    - assert (Hsome : (0 <? List.length all)%nat = true).
      { destruct all; [discriminate Hhole | reflexivity]. }
      rewrite Hsome.
      destruct (issue_ids_throws all Hhole) as (e & Hids & He).
      exists e. split; [exact He|].
      unfold mbind at 1, TempoService.enrichWithIssueKeys, mbind at 1, lift at 1.
      rewrite Hids. reflexivity.
    - destruct (transformWorklogs_throws all Hhole) as (e & Htransform & He).
      exists e. split; [exact He|].
      unfold mbind, ret, lift. rewrite Htransform. reflexivity. }
  destruct Hthrow as (e & He & ->).
  exists (message e).
  unfold respond_failure, mbind, emit, ret. rewrite He. cbn [get_opt or_else truthy].
  unfold tr1. rewrite <- !app_assoc. reflexivity.
Qed.

End NullRecord.
(** ** The theorems at work on the examples *)

Import Examples.
#[local] Existing Instance runtime.

(** On a concrete upstream a call is looked up by evaluation. *)
Ltac answered := eexists; split; reflexivity.




(** At an exact tie the digit printed is decided by the double, which
    is not the decimal the quotient is written with: 18 seconds are
    0.005 hours, stored slightly above, and 3618 seconds are 1.005
    hours, stored slightly below. *)
Remark timeSpentHours_ties :
  to_fixed2 (div (int 18) (int 3600)) = "0.01" /\
  to_fixed2 (div (int 3618) (int 3600)) = "1.00".
Proof. split; vm_compute; reflexivity. Qed.

Definition from_january : value := Str "2026-01-01".
Definition to_january : value := Str "2026-01-31".


Lemma page_loop_calls_witness :
  TempoService.page_loop (rt := runtime) sliced service from_january to_january 5 0 [] []
  = Some (Ok hundred_and_twenty,
          calls_from from_january to_january 0 (120 / 50 + 1)) /\
  List.length (calls_from from_january to_january 0 (120 / 50 + 1)) = 3%nat.
Proof.
  destruct (page_loop_calls (rt := runtime) sliced service from_january to_january)
    as (_ & _ & Hsliced).
  destruct (Hsliced hundred_and_twenty
              (fun i => if (List.length (slice hundred_and_twenty i) =? 50)%nat
                        then with_next else without_next) 5%nat [])
    as [Hrun Hcount].
  - intros i. eexists. split; [reflexivity|].
    unfold params_at, slice. cbn [offset].
    replace (Z.to_nat (50 * Z.of_nat i)) with (50 * i)%nat by lia. reflexivity.
  - intros i. destruct (List.length (slice hundred_and_twenty i) =? 50)%nat; reflexivity.
  - vm_compute. lia.
  - split; [exact Hrun | reflexivity].
Defined.

(** Counterexample to C2 as stated: an upstream that holds 50 records
    and returns them all in one page without a next marker is queried
    once, where the formula [ceil((N + 1) / 50)] counts two calls. *)
Lemma page_loop_calls_counterexample :
  exists tr : list event,
    TempoService.page_loop (rt := runtime) all_at_once service from_january to_january
      5 0 [] []
    = Some (Ok fifty, tr) /\
    List.length fifty = 50%nat /\
    List.length tr <> ((List.length fifty + 1 + 49) / 50)%nat.
Proof.
  eexists. split; [vm_compute; reflexivity|].
  split; [reflexivity | vm_compute; discriminate].
Qed.



(** Jira finding nothing, and a worklog whose issue goes by the name of
    a member of [Object.prototype]. *)
Definition jira_nothing : world :=
  {| tempo_get := tempo_two_pages;
     jira_post := fun _ _ => Ok (Obj [("issues", Arr [])]) |}.

Definition namesake (key summary : value) : list (string * value) :=
  [("tempoWorklogId", int 7);
   ("issue", Obj [("id", Str "constructor"); ("key", key); ("summary", summary)]);
   ("timeSpentSeconds", int 60)].

(** C5: a worklog without a match is not always left untouched.  Jira
    returns no issue at all, so that the worklog whose issue identifier
    is the string constructor has no match; yet [issueMap[id]] is the
    member the object literal inherits under that name, and the key and
    the summary that the worklog came with are overwritten with
    undefined. *)
Theorem enrichWithIssueKeys_inherited_name :
  TempoService.enrichWithIssueKeys (rt := runtime) jira_nothing jira_credentials
    [Obj (namesake (Str "PRJ-7") (Str "Kept"))] []
  = Some (Ok [Obj (namesake Undefined Undefined)],
          [JiraPost "/rest/api/3/search/jql"
             {| jql := "id in (constructor)"; fields := ["key"; "summary"];
                maxResults := 1 |}]) /\
  TempoService.issue_map_of (rt := runtime) (Obj [("issues", Arr [])])
  = Ok empty_dictionary.
Proof. split; vm_compute; reflexivity. Qed.


Lemma handler_fetch_failure_witness :
  Handler.handler (rt := runtime) tempo_down env 5 january []
  = Some (Ok (Handler.res (int 503) (Obj [
            ("error", Str "Failed to retrieve worklogs");
            ("message", Str "Service Unavailable");
            ("details", Obj [("message", Str "Service Unavailable")])
          ])),
          ([entry_event]
             ++ calls_from from_january to_january 0 2
             ++ [ContextLogError [Str "Error fetching worklogs:";
                                  Str "Request failed with status code 503"]])%list).
Proof.
  destruct (handler_fetch_failure (rt := runtime) tempo_down env 5 january []
              [(map Obj first_page, with_next)] unavailable)
    as (status & Hrun & Hstatus & _).
  - repeat split; vm_compute; reflexivity.
  - reflexivity.
  - intros [|j] results metadata Hj; [|destruct j; discriminate Hj].
    injection Hj as <- <-. split; [answered | reflexivity].
  - reflexivity.
  - cbn. lia.
  - rewrite Hrun, (Hstatus eq_refl). reflexivity.
Defined.

Lemma handler_rejects_bad_request_witness :
  exists body : value,
    Handler.handler (rt := runtime) found env 5 inverted []
    = Some (Ok (Handler.res (int 400) body), [entry_event]) /\
    error_body body.
Proof.
  apply (handler_rejects_bad_request (rt := runtime) found env 5 inverted []).
  right. right.
  exists "2026-02-01", "2026-01-01", (2026, 2, 1), (2026, 1, 1).
  repeat split; try reflexivity.
  cbn. lia.
Defined.

(** The legacy reading at work: with a year part that can be a month,
    an impossible month is taken for the day and the day for the year,
    so that 0012-13-01 is the 13th of December 2001; 2026-13-45 stays
    invalid. *)
Remark legacy_reading :
  Handler.date_parse (rt := runtime) "0012-13-01"
  = Some (Handler.msPerDay * Handler.MakeDay 2001 12 13) /\
  Handler.date_parse (rt := runtime) "2026-13-45" = None.
Proof. split; reflexivity. Qed.

Definition thirteenth_month : Handler.dict :=
  [("startDate", "2026-13-45"); ("endDate", "2026-01-31")].

(** Counterexample to C9 as stated: 2026-13-45 is no date, yet it has
    the shape the handler checks and makes an invalid [Date], which
    compares as not later than any other; the request goes through to
    Tempo and is answered 200. *)
Lemma handler_rejects_bad_request_counterexample :
  calendar_date "2026-13-45" = None /\
  exists (r : value) (tr : list event),
    Handler.handler (rt := runtime) found env 5 thirteenth_month [] = Some (Ok r, tr) /\
    get_opt r "status" = int 200 /\
    tr !! 1%nat = Some (call_at (Str "2026-13-45") (Str "2026-01-31") 0).
Proof.
  split; [reflexivity|].
  eexists _, _. split; [vm_compute; reflexivity|].
  split; reflexivity.
Qed.

(** ** Further examples *)

(** Tempo announcing a next page for ever. *)
Definition endless : world :=
  {| tempo_get := fun _ _ => Ok (page [] with_next); jira_post := jira_found |}.

(** Tempo answering with an empty object. *)
Definition quiet : world :=
  {| tempo_get := fun _ _ => Ok (Obj []); jira_post := jira_found |}.

(** Tempo with a hole in its only page. *)
Definition holed : world :=
  {| tempo_get := fun _ _ =>
       Ok (Obj [("results", Arr [Obj (worklog 1 10001 5400); Null]);
                ("metadata", without_next)]);
     jira_post := jira_found |}.

(** Jira answering with the same issue twice, renamed in between. *)
Definition renamed : value :=
  Obj [("issues", Arr [
    Obj [("id", Str "10001"); ("key", Str "OLD-1");
         ("fields", Obj [("summary", Str "Set up the pipeline")])];
    Obj [("id", Str "10001"); ("key", Str "PRJ-1");
         ("fields", Obj [("summary", Str "Set up the pipeline")])]
  ])].


Definition same_day : Handler.dict :=
  [("startDate", "2026-01-05"); ("endDate", "2026-01-05")].

Definition short_month : Handler.dict :=
  [("startDate", "2026-1-5"); ("endDate", "2026-01-31")].


Lemma timeSpentHours_shape_witness :
  exists (record : value) (whole fraction : string),
    TempoService.transformWorklog (rt := runtime) (Obj (worklog 1 10001 5400)) = Ok record /\
    get_opt record "timeSpentHours" = Str ("" ++ whole ++ "." ++ fraction) /\
    (1 <= String.length whole)%nat /\ String.length fraction = 2%nat.
Proof.
  apply (timeSpentHours_shape (rt := runtime) (worklog 1 10001 5400) 5400).
  - vm_compute. split; reflexivity.
  - reflexivity.
Defined.


Lemma issue_map_last_wins_witness :
  exists m : dictionary,
    TempoService.issue_map_of (rt := runtime) renamed = Ok m /\
    read m "10001" = Stored (entry (Str "PRJ-1") (Str "Set up the pipeline")) /\
    read m "10003" = Absent /\
    read m "toString" = Builtin.
Proof.
  destruct (TempoService.issue_map_of (rt := runtime) renamed) as [m|e] eqn:Hmap;
    [|vm_compute in Hmap; discriminate].
  exists m. split; [reflexivity|].
  destruct (issue_map_last_wins (rt := runtime) renamed m Hmap) as (issues & Hissues & Hm).
  injection Hissues as <-. rewrite !Hm. repeat split.
Defined.

Lemma getWorklogs_events_witness :
  exists (r : result (list value)) (tr' : list event),
    TempoService.getWorklogs (rt := runtime) found service 5 from_january to_january []
    = Some (r, tr') /\
    exists (n : nat) (extra : list event),
      (1 <= n <= 5)%nat /\
      tr' = ([] ++ calls_from from_january to_january 0 n ++ extra)%list /\
      jira_events extra /\
      (TempoService.this_jiraConfig service = None -> extra = []).
Proof.
  destruct (TempoService.getWorklogs (rt := runtime) found service 5
              from_january to_january []) as [[r tr']|] eqn:Hrun;
    [|vm_compute in Hrun; discriminate].
  exists r, tr'. split; [reflexivity|].
  exact (getWorklogs_events (rt := runtime) found service 5 from_january to_january
           [] r tr' Hrun).
Defined.



Lemma handler_configuration_error_witness :
  Handler.handler (rt := runtime) found [("JIRA_API_TOKEN", "jira-token")] 5 january []
  = Some (Ok (Handler.res (int 500) (Obj [
            ("error", Str "Configuration error");
            ("message", Str "TEMPO_API_TOKEN is not configured")
          ])),
          ([] ++ [entry_event])%list).
Proof.
  apply (handler_configuration_error (rt := runtime) found
           [("JIRA_API_TOKEN", "jira-token")] 5 january []).
  - repeat split; vm_compute; reflexivity.
  - reflexivity.
Defined.

Lemma handler_runs_pipeline_witness :
  exists (r : value) (tr' : list event),
    Handler.handler (rt := runtime) found env 5 same_day [] = Some (Ok r, tr') /\
    get_opt r "status" = int 200.
Proof.
  rewrite (handler_runs_pipeline (rt := runtime) found env 5 same_day []
             "2026-01-05" "2026-01-05").
  - eexists _, _. split; vm_compute; reflexivity.
  - reflexivity.
  - reflexivity.
  - apply dateRegex_shape. reflexivity.
  - apply dateRegex_shape. reflexivity.
  - left. exists (2026, 1, 5), (2026, 1, 5).
    split; [reflexivity|]. split; [reflexivity|]. cbn. lia.
  - reflexivity.
Defined.

Lemma handler_rejection_labels_witness :
  exists body : value,
    Handler.handler (rt := runtime) found env 5 short_month []
    = Some (Ok (Handler.res (int 400) body), ([] ++ [entry_event])%list) /\
    get_opt body "error" = Str "Invalid date format" /\
    get_opt body "provided"
    = Obj [("startDate", Str "2026-1-5"); ("endDate", Str "2026-01-31")].
Proof.
  destruct (handler_rejection_labels (rt := runtime) found env 5 short_month [])
    as (_ & Hformat & _).
  apply (Hformat "2026-1-5" "2026-01-31").
  - reflexivity.
  - reflexivity.
  - discriminate.
  - discriminate.
  - left. intros [Hlen _]. discriminate Hlen.
Defined.

Lemma handler_always_responds_witness :
  exists (r : result value) (tr' : list event),
    Handler.handler (rt := runtime) tempo_down env 5 january [] = Some (r, tr') /\
    exists status body,
      r = Ok (Obj [("status", status);
                   ("headers", Obj [("Content-Type", Str "application/json")]);
                   ("body", body)]).
Proof.
  destruct (Handler.handler (rt := runtime) tempo_down env 5 january [])
    as [[r tr']|] eqn:Hrun; [|vm_compute in Hrun; discriminate].
  exists r, tr'. split; [reflexivity|].
  exact (handler_always_responds (rt := runtime) tempo_down env 5 january [] r tr' Hrun).
Defined.

Lemma handler_never_completes_witness :
  Handler.handler (rt := runtime) endless env 1000 january [] = None.
Proof.
  apply (handler_never_completes (rt := runtime) endless env january).
  - repeat split; vm_compute; reflexivity.
  - reflexivity.
  - intros i. exists [], with_next. split; [answered | reflexivity].
Defined.


Lemma worklogs_response_missing_seconds_witness :
  Handler.worklogs_response (rt := runtime) from_january to_january Undefined
    [Obj [("timeSpentSeconds", int 60)]; Obj [("id", int 2)]]
  = Handler.res (int 200) (Obj [
      ("success", Bool true);
      ("query", Obj [("startDate", from_january); ("endDate", to_january)]);
      ("summary", Obj [
         ("totalWorklogs", int 2);
         ("totalHours", Num (parse_float "NaN"));
         ("totalSeconds", Num S754_nan)
       ]);
      ("worklogs", Arr [Obj [("timeSpentSeconds", int 60)]; Obj [("id", int 2)]])
    ]).
Proof.
  apply (worklogs_response_missing_seconds (rt := runtime) from_january to_january
           Undefined [Obj [("timeSpentSeconds", int 60)]; Obj [("id", int 2)]]).
  - repeat constructor.
  - right. left. reflexivity.
  - reflexivity.
Defined.

Lemma handler_nothing_found_witness :
  Handler.handler (rt := runtime) quiet env 5 january []
  = Some (Ok (Handler.res (int 200) (Obj [
            ("success", Bool true);
            ("query", Obj [("startDate", from_january); ("endDate", to_january)]);
            ("summary", Obj [
               ("totalWorklogs", int 0);
               ("totalHours", Num (parse_float "0.00"));
               ("totalSeconds", int 0)
             ]);
            ("worklogs", Arr [])
          ])),
          ([] ++ [entry_event; call_at from_january to_january 0])%list).
Proof.
  apply (handler_nothing_found (rt := runtime) quiet env 5 january []).
  - repeat split; vm_compute; reflexivity.
  - reflexivity.
  - exists (Obj []). split; [reflexivity|]. split; [reflexivity|].
    split; [left; reflexivity | reflexivity].
  - lia.
Defined.

Lemma handler_null_record_witness :
  exists text : string,
    Handler.handler (rt := runtime) holed env 5 january []
    = Some (Ok (Handler.res (int 500) (Obj [
              ("error", Str "Failed to retrieve worklogs");
              ("message", Str text);
              ("details", Null)
            ])),
            ([] ++ [entry_event]
                ++ calls_from from_january to_january 0 1
                ++ [ContextLogError [Str "Error fetching worklogs:"; Str text]])%list).
Proof.
  apply (handler_null_record (rt := runtime) holed env 5 january [] []
           [Obj (worklog 1 10001 5400); Null] without_next).
  - repeat split; vm_compute; reflexivity.
  - reflexivity.
  - intros j results metadata Hj. destruct j; discriminate Hj.
  - answered.
  - reflexivity.
  - cbn. lia.
  - reflexivity.
Defined.
